(** * mongollect: collection injection and default CRUD operations

    A shallow embedding of [mongollect/core.py].  The module has two
    classes: [CRUDMixin], fifteen default data-access methods written
    against [self.collection], and [CollectionInjector], whose two
    decorator factories wrap a user class so that construction stores
    collection handles on the instance.

    Python objects are modelled by the small universe below, attribute
    lookup by finite maps, exceptions by a result type, and the database
    driver (which is not part of the package) by an interface whose calls
    are recorded in a log. *)

From Stdlib Require Import ZArith List Bool Lia.
From stdpp Require Import base option list strings gmap.

Set Warnings "-register-all".

Local Open Scope Z_scope.
Local Open Scope string_scope.

(** ** Python data *)

(** Plain data: documents, filters, update specifications, limits. A
    [dict] is an association list in insertion order. *)
Inductive pyval : Type :=
| PNone
| PBool (b : bool)
| PInt (n : Z)
| PStr (s : string)
| PList (items : list pyval)
| PDict (items : list (pyval * pyval)).

(** Truth value testing, as used by [or], [not] and [if]. *)
Definition truthy (v : pyval) : bool :=
  match v with
  | PNone => false
  | PBool b => b
  | PInt n => negb (Z.eqb n 0)
  | PStr s => negb (String.eqb s "")
  | PList items => match items with [] => false | _ => true end
  | PDict items => match items with [] => false | _ => true end
  end.

(** [a or b] *)
Definition py_or (a b : pyval) : pyval := if truthy a then a else b.

(** The name CPython prints for the type of a value. *)
Definition pyval_type_name (v : pyval) : string :=
  match v with
  | PNone => "NoneType"
  | PBool _ => "bool"
  | PInt _ => "int"
  | PStr _ => "str"
  | PList _ => "list"
  | PDict _ => "dict"
  end.

(** ** Exceptions *)

Inductive exn_class : Type :=
| AttributeError
| KeyError
| TypeError
| ValueError
| OtherError (name : string).

(** An exception instance: its class, its message and, for
    [raise ... from e], the chained cause. *)
Inductive exn : Type :=
| Exn (cls : exn_class) (msg : string) (cause : option exn).

Definition exn_cls (e : exn) : exn_class := let 'Exn c _ _ := e in c.
Definition exn_msg (e : exn) : string := let 'Exn _ m _ := e in m.

Definition exn_class_eqb (a b : exn_class) : bool :=
  match a, b with
  | AttributeError, AttributeError => true
  | KeyError, KeyError => true
  | TypeError, TypeError => true
  | ValueError, ValueError => true
  | OtherError x, OtherError y => String.eqb x y
  | _, _ => false
  end.

Inductive res (A : Type) : Type :=
| Ok (a : A)
| Raise (e : exn).
Arguments Ok {A} a.
Arguments Raise {A} e.

Definition res_map {A B} (f : A -> B) (r : res A) : res B :=
  match r with Ok a => Ok (f a) | Raise e => Raise e end.

(** ** Objects and attribute access *)

(** A collection handle, identified by a label of the driver's choosing. *)
Definition coll : Type := string.

(** What an attribute may hold: plain data ([None] included), a collection
    handle, or a database handle, of which only [db[name]] is used. *)
Inductive obj : Type :=
| OData (v : pyval)
| OColl (c : coll)
| ODb (getitem : string -> res obj).

Definition obj_type_name (o : obj) : string :=
  match o with
  | OData v => pyval_type_name v
  | OColl _ => "Collection"
  | ODb _ => "Database"
  end.

(** [o is None] *)
Definition is_none (o : obj) : bool :=
  match o with OData PNone => true | _ => false end.

Definition obj_truthy (o : obj) : bool :=
  match o with OData v => truthy v | _ => true end.

(** Lookup of a string key in a [dict]. *)
Fixpoint dict_get (items : list (pyval * pyval)) (key : string) : option pyval :=
  match items with
  | [] => None
  | (PStr k, v) :: rest => if String.eqb k key then Some v else dict_get rest key
  | _ :: rest => dict_get rest key
  end.

(** [s.find(sub)]: the position of the first occurrence of [sub] in
    [s], or [-1]. *)
Definition str_find (s sub : string) : Z :=
  match String.index 0 sub s with
  | Some i => Z.of_nat i
  | None => -1
  end.

(** [o[key]] for a string key.  The message texts of the built-in errors
    are CPython's. *)
Definition py_getitem (o : obj) (key : string) : res obj :=
  match o with
  | ODb getitem => getitem key
  | OData (PDict items) =>
      match dict_get items key with
      | Some v => Ok (OData v)
      | None => Raise (Exn KeyError key None)
      end
  | OData (PStr _) =>
      Raise (Exn TypeError "string indices must be integers, not 'str'" None)
  | OData (PList _) =>
      Raise (Exn TypeError "list indices must be integers or slices, not str" None)
  | _ =>
      Raise (Exn TypeError ("'" +:+ obj_type_name o +:+ "' object is not subscriptable") None)
  end.

(** An instance: the name of its type, the data attributes visible on
    its class (through the MRO) and its own [__dict__]. *)
Record instance : Type := Instance {
  type_name : string;
  class_attrs : gmap string obj;
  inst_dict : gmap string obj
}.

Definition getattr (self : instance) (name : string) : option obj :=
  match inst_dict self !! name with
  | Some o => Some o
  | None => class_attrs self !! name
  end.

Definition hasattr (self : instance) (name : string) : bool :=
  match getattr self name with Some _ => true | None => false end.

Definition setattr (self : instance) (name : string) (o : obj) : instance :=
  {| type_name := type_name self;
     class_attrs := class_attrs self;
     inst_dict := <[name := o]> (inst_dict self) |}.

Definition no_attribute (tname attr : string) : exn :=
  Exn AttributeError ("'" +:+ tname +:+ "' object has no attribute '" +:+ attr +:+ "'") None.

(** [self.name] *)
Definition load_attr (self : instance) (name : string) : res obj :=
  match getattr self name with
  | Some o => Ok o
  | None => Raise (no_attribute (type_name self) name)
  end.

(** ** State and exceptions

    Python code mutates objects in place and may raise at any point; what
    was written before the exception stays written.  A computation takes
    the state, and returns a result or an exception together with the
    state it leaves behind. *)
Definition SE (S A : Type) : Type := S -> res A * S.

Definition ret {S A} (a : A) : SE S A := fun s => (Ok a, s).
Definition raise {S A} (e : exn) : SE S A := fun s => (Raise e, s).
Definition lift {S A} (r : res A) : SE S A := fun s => (r, s).
Definition bind {S A B} (m : SE S A) (k : A -> SE S B) : SE S B :=
  fun s => match m s with
           | (Ok a, s') => k a s'
           | (Raise e, s') => (Raise e, s')
           end.

Notation "x <- c ;; k" := (bind c (fun x => k))
  (at level 100, c at next level, right associativity).

(** ** The collection boundary *)

(** The driver behind a collection handle.  Every operation may change the
    driver's state and may raise.  [find] yields a cursor, [limit] a
    cursor, and iterating a cursor yields documents. *)
Class Driver : Type := {
  dstate : Type;
  cursor : Type;
  drv_insert_one : coll -> pyval -> dstate -> res pyval * dstate;
  drv_insert_many : coll -> pyval -> dstate -> res pyval * dstate;
  drv_find_one : coll -> pyval -> dstate -> res pyval * dstate;
  drv_find : coll -> pyval -> dstate -> res cursor * dstate;
  drv_limit : cursor -> pyval -> dstate -> res cursor * dstate;
  drv_iter : cursor -> dstate -> res (list pyval) * dstate;
  drv_update_one : coll -> pyval -> pyval -> dstate -> res pyval * dstate;
  drv_update_many : coll -> pyval -> pyval -> dstate -> res pyval * dstate;
  drv_delete_one : coll -> pyval -> dstate -> res pyval * dstate;
  drv_delete_many : coll -> pyval -> dstate -> res pyval * dstate;
  drv_count_documents : coll -> pyval -> option pyval -> dstate -> res Z * dstate
}.

Section Boundary.
Context {D : Driver}.

(** One entry per call that crosses the boundary, with its arguments. *)
Inductive bcall : Type :=
| BInsertOne (c : coll) (data : pyval)
| BInsertMany (c : coll) (data : pyval)
| BFindOne (c : coll) (query : pyval)
| BFind (c : coll) (query : pyval)
| BLimit (cur : cursor) (n : pyval)
| BIter (cur : cursor)
| BUpdateOne (c : coll) (query update : pyval)
| BUpdateMany (c : coll) (query update : pyval)
| BDeleteOne (c : coll) (query : pyval)
| BDeleteMany (c : coll) (query : pyval)
| BCountDocuments (c : coll) (query : pyval) (limit : option pyval).

Record world : Type := World {
  drv : dstate;
  calls : list bcall
}.

(** Computations that read and write the world and may raise. *)
Definition M (A : Type) : Type := SE world A.

(** Perform a boundary call and log it. *)
Definition boundary {A} (c : bcall) (f : dstate -> res A * dstate) : M A :=
  fun w => let (r, s) := f (drv w) in (r, World s (calls w ++ [c])).
End Boundary.

Arguments bcall : clear implicits.
Arguments world : clear implicits.
Arguments M : clear implicits.

(** ** [class CRUDMixin] *)

Module CRUDMixin.
Section Methods.
Context {D : Driver}.

(** The error every method raises when the guard
  [if not hasattr(self, 'collection')] fires. *)
Definition no_collection : exn :=
Exn AttributeError
  "No collection found. Ensure class is decorated with @injector.collection()"
  None.

(** [self.collection.<meth>] for the driver methods that no built-in
    type has ([insert_one], [find_one], [count_documents], ...): the
    attribute is loaded and the method is looked up on whatever it holds;
    among the objects modelled here only a collection handle has it.
    ([find] is the exception, see [collection_find].) *)
Definition collection_method (self : instance) (meth : string) : M D coll :=
  o <- lift (load_attr self "collection") ;;
  match o with
  | OColl c => ret c
  | _ => raise (no_attribute (obj_type_name o) meth)
  end.

(** What [self.collection.find(query)] evaluates to: a cursor of the
    driver, or, when the attribute holds a [str], the integer that
    [str.find] returns. *)
Inductive found : Type :=
| FCursor (cur : cursor)
| FInt (n : Z).

(** [self.collection.find(query)].  A collection handle forwards to the
    driver.  A [str] has a [find] of its own: it accepts a [str] and
    returns the position of the first occurrence or [-1], and rejects
    anything else with [TypeError].  No other object modelled here has a
    [find]. *)
Definition collection_find (self : instance) (query : pyval) : M D found :=
  o <- lift (load_attr self "collection") ;;
  match o with
  | OColl c =>
      cur <- boundary (BFind c query) (drv_find c query) ;;
      ret (FCursor cur)
  | OData (PStr s) =>
      match query with
      | PStr sub => ret (FInt (str_find s sub))
      | _ => raise (Exn TypeError ("must be str, not " +:+ pyval_type_name query) None)
      end
  | _ => raise (no_attribute (obj_type_name o) "find")
  end.

(** [cursor.limit(limit)] *)
Definition cursor_limit (cursor : found) (limit : pyval) : M D found :=
  match cursor with
  | FCursor cur =>
      cur' <- boundary (BLimit cur limit) (drv_limit cur limit) ;;
      ret (FCursor cur')
  | FInt _ => raise (no_attribute "int" "limit")
  end.

(** [list(cursor)] *)
Definition list_cursor (cursor : found) : M D (list pyval) :=
  match cursor with
  | FCursor cur => boundary (BIter cur) (drv_iter cur)
  | FInt _ => raise (Exn TypeError "'int' object is not iterable" None)
  end.

Definition create (self : instance) (data : pyval) : M D pyval :=
if negb (hasattr self "collection") then raise no_collection
else
  c <- collection_method self "insert_one" ;;
  boundary (BInsertOne c data) (drv_insert_one c data).

Definition create_many (self : instance) (data : pyval) : M D pyval :=
if negb (hasattr self "collection") then raise no_collection
else
  c <- collection_method self "insert_many" ;;
  boundary (BInsertMany c data) (drv_insert_many c data).

(** The filter [{"_id": doc_id}]. *)
Definition by_id (doc_id : pyval) : pyval := PDict [(PStr "_id", doc_id)].

Definition find_by_id (self : instance) (doc_id : pyval) : M D pyval :=
if negb (hasattr self "collection") then raise no_collection
else
  c <- collection_method self "find_one" ;;
  boundary (BFindOne c (by_id doc_id)) (drv_find_one c (by_id doc_id)).

Definition find_one (self : instance) (query : pyval) : M D pyval :=
if negb (hasattr self "collection") then raise no_collection
else
  c <- collection_method self "find_one" ;;
  boundary (BFindOne c query) (drv_find_one c query).

(** An omitted argument is [None] here; both parameters default to
  [None] in the source. *)
Definition find_many (self : instance) (query limit : option pyval) : M D pyval :=
let query := default PNone query in
let limit := default PNone limit in
if negb (hasattr self "collection") then raise no_collection
else
  let query := py_or query (PDict []) in
  cursor <- collection_find self query ;;
  cursor <- (if truthy limit then cursor_limit cursor limit else ret cursor) ;;
  docs <- list_cursor cursor ;;
  ret (PList docs).

Definition find_all (self : instance) (query limit : option pyval) : M D pyval :=
let query := default PNone query in
let limit := default PNone limit in
if negb (hasattr self "collection") then raise no_collection
else
  let query := py_or query (PDict []) in
  cursor <- collection_find self query ;;
  cursor <- (if truthy limit then cursor_limit cursor limit else ret cursor) ;;
  docs <- list_cursor cursor ;;
  ret (PList docs).

Definition update_by_id (self : instance) (doc_id update_data : pyval) : M D pyval :=
if negb (hasattr self "collection") then raise no_collection
else
  c <- collection_method self "update_one" ;;
  boundary (BUpdateOne c (by_id doc_id) update_data)
           (drv_update_one c (by_id doc_id) update_data).

Definition update_one (self : instance) (query update : pyval) : M D pyval :=
if negb (hasattr self "collection") then raise no_collection
else
  c <- collection_method self "update_one" ;;
  boundary (BUpdateOne c query update) (drv_update_one c query update).

Definition update_many (self : instance) (query update : pyval) : M D pyval :=
if negb (hasattr self "collection") then raise no_collection
else
  c <- collection_method self "update_many" ;;
  boundary (BUpdateMany c query update) (drv_update_many c query update).

Definition delete_by_id (self : instance) (doc_id : pyval) : M D pyval :=
if negb (hasattr self "collection") then raise no_collection
else
  c <- collection_method self "delete_one" ;;
  boundary (BDeleteOne c (by_id doc_id)) (drv_delete_one c (by_id doc_id)).

Definition delete_one (self : instance) (query : pyval) : M D pyval :=
if negb (hasattr self "collection") then raise no_collection
else
  c <- collection_method self "delete_one" ;;
  boundary (BDeleteOne c query) (drv_delete_one c query).

Definition delete_many (self : instance) (query : pyval) : M D pyval :=
if negb (hasattr self "collection") then raise no_collection
else
  c <- collection_method self "delete_many" ;;
  boundary (BDeleteMany c query) (drv_delete_many c query).

Definition count_documents (self : instance) (query : option pyval) : M D pyval :=
let query := default PNone query in
if negb (hasattr self "collection") then raise no_collection
else
  let query := py_or query (PDict []) in
  c <- collection_method self "count_documents" ;;
  n <- boundary (BCountDocuments c query None) (drv_count_documents c query None) ;;
  ret (PInt n).

(** [return self.count_documents(query)].  The call goes through
  [self], so [self_count_documents] is whatever the instance's type
  resolves the name to: [count_documents] above unless a class
  earlier in the MRO redefines it. *)
Definition count (self_count_documents : instance -> option pyval -> M D pyval)
  (self : instance) (query : option pyval) : M D pyval :=
let query := default PNone query in
self_count_documents self (Some query).

(** [exists]; the name is reserved in Rocq. *)
Definition exists_ (self : instance) (query : pyval) : M D pyval :=
if negb (hasattr self "collection") then raise no_collection
else
  c <- collection_method self "count_documents" ;;
  n <- boundary (BCountDocuments c query (Some (PInt 1)))
                (drv_count_documents c query (Some (PInt 1))) ;;
  ret (PBool (Z.ltb 0 n)).

(** A call of one of the fifteen methods, with its arguments. *)
Inductive crud_op : Type :=
| OpCreate (data : pyval)
| OpCreateMany (data : pyval)
| OpFindById (doc_id : pyval)
| OpFindOne (query : pyval)
| OpFindMany (query limit : option pyval)
| OpFindAll (query limit : option pyval)
| OpUpdateById (doc_id update_data : pyval)
| OpUpdateOne (query update : pyval)
| OpUpdateMany (query update : pyval)
| OpDeleteById (doc_id : pyval)
| OpDeleteOne (query : pyval)
| OpDeleteMany (query : pyval)
| OpCountDocuments (query : option pyval)
| OpCount (query : option pyval)
| OpExists (query : pyval).

(** The method of [CRUDMixin] an operation names, applied to [self]. *)
Definition invoke (op : crud_op) (self : instance) : M D pyval :=
match op with
| OpCreate data => create self data
| OpCreateMany data => create_many self data
| OpFindById doc_id => find_by_id self doc_id
| OpFindOne query => find_one self query
| OpFindMany query limit => find_many self query limit
| OpFindAll query limit => find_all self query limit
| OpUpdateById doc_id update_data => update_by_id self doc_id update_data
| OpUpdateOne query update => update_one self query update
| OpUpdateMany query update => update_many self query update
| OpDeleteById doc_id => delete_by_id self doc_id
| OpDeleteOne query => delete_one self query
| OpDeleteMany query => delete_many self query
| OpCountDocuments query => count_documents self query
| OpCount query => count count_documents self query
| OpExists query => exists_ self query
end.

(** The attribute of the collection an operation reaches for first. *)
Definition driver_method (op : crud_op) : string :=
match op with
| OpCreate _ => "insert_one"
| OpCreateMany _ => "insert_many"
| OpFindById _ | OpFindOne _ => "find_one"
| OpFindMany _ _ | OpFindAll _ _ => "find"
| OpUpdateById _ _ | OpUpdateOne _ _ => "update_one"
| OpUpdateMany _ _ => "update_many"
| OpDeleteById _ | OpDeleteOne _ => "delete_one"
| OpDeleteMany _ => "delete_many"
| OpCountDocuments _ | OpCount _ | OpExists _ => "count_documents"
end.
End Methods.
End CRUDMixin.

(** ** Classes and initializers *)

(** Keyword arguments, in call order. *)
Definition kwargs_t : Type := list (string * pyval).

(** An [__init__]: it receives [*args] and [**kwargs] and works on the
    instance. *)
Definition init_fn : Type := list pyval -> kwargs_t -> SE instance unit.

(** A user-written class, as far as the wrapper looks at it: its
    [__name__], the data attributes set on the class, and the
    [__init__] that attribute lookup on the class finds when some class
    of its MRO other than [object] defines one. *)
Record user_class : Type := UserClass {
  uc_name : string;
  uc_attrs : gmap string obj;
  uc_init : option init_fn
}.

Inductive pyclass : Type :=
| ClsObject
| ClsCRUDMixin
| ClsUser (u : user_class).

Definition class_name (c : pyclass) : string :=
  match c with
  | ClsObject => "object"
  | ClsCRUDMixin => "CRUDMixin"
  | ClsUser u => uc_name u
  end.

(** [base is object] *)
Definition is_object (c : pyclass) : bool :=
  match c with ClsObject => true | _ => false end.

(** [object.__init__] called for an instance whose type defines an
    [__init__] of its own: any extra argument is a [TypeError]. *)
Definition object_init : init_fn :=
  fun args kwargs =>
    match args, kwargs with
    | [], [] => ret tt
    | _, _ =>
        raise (Exn TypeError
          "object.__init__() takes exactly one argument (the instance to initialize)"
          None)
    end.

(** [base.__init__]; [CRUDMixin] defines none and inherits [object]'s. *)
Definition class_init (base : pyclass) : init_fn :=
  match base with
  | ClsObject | ClsCRUDMixin => object_init
  | ClsUser u => default object_init (uc_init u)
  end.

(** [hasattr(base, '__init__')]: every class has one. *)
Definition class_has_init (base : pyclass) : bool := true.

(** Data attributes an instance finds on its class, bases left to right. *)
Definition class_data (base : pyclass) : gmap string obj :=
  match base with
  | ClsUser u => uc_attrs u
  | _ => ∅
  end.

Fixpoint bases_data (bases : list pyclass) : gmap string obj :=
  match bases with
  | [] => ∅
  | base :: rest => class_data base ∪ bases_data rest
  end.

(** The class a decorator returns: its [__name__], its bases, its
    [__init__] and the text of its [__repr__].  ([__qualname__],
    [__module__] and [__doc__] are copied next to [__name__] and are read
    by nothing below.) *)
Record wrapped_class : Type := WrappedClass {
  w_name : string;
  w_bases : list pyclass;
  w_init : init_fn;
  w_repr : string
}.

(** Calling the class with arguments: a fresh instance is made and handed to
    [__init__]; it is returned only if [__init__] returns. *)
Definition new_instance (W : wrapped_class) : instance :=
  {| type_name := w_name W;
     class_attrs := bases_data (w_bases W);
     inst_dict := ∅ |}.

Definition construct (W : wrapped_class) (args : list pyval) (kwargs : kwargs_t)
  : res instance :=
  match w_init W args kwargs (new_instance W) with
  | (Ok _, self) => Ok self
  | (Raise e, _) => Raise e
  end.

(** [isinstance(W(), CRUDMixin)]-style test on the class. *)
Definition has_crud (W : wrapped_class) : bool :=
  existsb (fun b => match b with ClsCRUDMixin => true | _ => false end) (w_bases W).

(** What a decorator may be applied to. *)
Inductive target : Type :=
| TClass (u : user_class)
| TOther (o : obj).

(** ** [class CollectionInjector] *)

Module CollectionInjector.

Record t : Type := Injector { db : obj }.

Definition __init__ (db : obj) : res t :=
  if is_none db
  then Raise (Exn ValueError "Database instance cannot be None" None)
  else Ok (Injector db).

(** The probe [try: _ = self.db[name] except (KeyError, AttributeError)
    as e: raise KeyError(...) from e]. *)
Definition not_accessible (name : string) (e : exn) : exn :=
  Exn KeyError ("Collection '" +:+ name +:+ "' not accessible in database") (Some e).

Definition probe (self : t) (name : string) : res unit :=
  match py_getitem (db self) name with
  | Ok _ => Ok tt
  | Raise e =>
      match exn_cls e with
      | KeyError | AttributeError => Raise (not_accessible name e)
      | _ => Raise e
      end
  end.

(** [base_classes = [cls]; if with_crud: base_classes.append(CRUDMixin)] *)
Definition base_classes (cls : user_class) (with_crud : bool) : list pyclass :=
  [ClsUser cls] ++ (if with_crud then [ClsCRUDMixin] else []).

(** The loop over [base_classes] that opens both [__init__]s. *)
Fixpoint init_bases (bases : list pyclass) (args : list pyval) (kwargs : kwargs_t)
  : SE instance unit :=
  match bases with
  | [] => ret tt
  | base :: rest =>
      fun self =>
        if class_has_init base then
          match class_init base args kwargs self with
          | (Ok _, self1) => init_bases rest args kwargs self1
          | (Raise e, self1) =>
              match exn_cls e with
              | TypeError =>
                  if negb (is_object base) then
                    match class_init base [] [] self1 with
                    | (Ok _, self2) => init_bases rest args kwargs self2
                    | (Raise e2, self2) => (Raise e2, self2)
                    end
                  else init_bases rest args kwargs self1
              | _ => (Raise e, self1)
              end
          end
        else init_bases rest args kwargs self
  end.

(** [self.db[name]] inside an [__init__]: there [self] is the parameter
    of [__init__], the instance under construction. *)
Definition self_db_getitem (name : string) : SE instance obj :=
  fun self =>
    match load_attr self "db" with
    | Ok d => (py_getitem d name, self)
    | Raise e => (Raise e, self)
    end.

(** [setattr(self, attr, value)] *)
Definition store (attr : string) (o : obj) : SE instance unit :=
  fun self => (Ok tt, setattr self attr o).

Section Decorators.
(** The module-level name [wraps], applied as [@wraps(cls)] to the
    class statement. *)
Variable wraps : user_class -> wrapped_class -> res wrapped_class.

(** *** [collection] *)

(** [Wrapped.__init__] *)
Definition collection_init (name : string) (bases : list pyclass) : init_fn :=
  fun args kwargs =>
    _ <- init_bases bases args kwargs ;;
    c <- self_db_getitem name ;;
    store "collection" c.

(** [Wrapped.__repr__] *)
Definition collection_repr (cls : user_class) (name : string) (with_crud : bool)
  : string :=
  let crud_info := if with_crud then " with CRUD" else "" in
  uc_name cls +:+ "(collection='" +:+ name +:+ "'" +:+ crud_info +:+ ")".

Definition collection_wrapper (self : t) (name : string) (with_crud : bool)
    (cls : target) : res wrapped_class :=
  match cls with
  | TOther _ => Raise (Exn TypeError "Decorator can only be applied to classes" None)
  | TClass cls =>
      match probe self name with
      | Raise e => Raise e
      | Ok _ =>
          let bases := base_classes cls with_crud in
          match wraps cls
                  {| w_name := "Wrapped";
                     w_bases := bases;
                     w_init := collection_init name bases;
                     w_repr := collection_repr cls name with_crud |} with
          | Raise e => Raise e
          | Ok W =>
              Ok {| w_name := uc_name cls;
                    w_bases := w_bases W;
                    w_init := w_init W;
                    w_repr := w_repr W |}
          end
      end
  end.

(** [def collection(self, name, with_crud=True)]; an omitted
    [with_crud] is [None] here. *)
Definition collection (self : t) (name : obj) (with_crud : option bool)
  : res (target -> res wrapped_class) :=
  let with_crud := default true with_crud in
  match name with
  | OData (PStr s) =>
      if negb (truthy (PStr s))
      then Raise (Exn ValueError "Collection name must be a non-empty string" None)
      else Ok (collection_wrapper self s with_crud)
  | _ => Raise (Exn ValueError "Collection name must be a non-empty string" None)
  end.

(** *** [multiple_collections] *)

(** The validation loop over [collections.items()]. *)
Fixpoint probe_all (self : t) (collections : list (string * string)) : res unit :=
  match collections with
  | [] => Ok tt
  | (attr_name, collection_name) :: rest =>
      match probe self collection_name with
      | Ok _ => probe_all self rest
      | Raise e => Raise e
      end
  end.

(** The loop [setattr(self, attr_name, self.db[collection_name])]. *)
Fixpoint inject_all (collections : list (string * string)) : SE instance unit :=
  match collections with
  | [] => ret tt
  | (attr_name, collection_name) :: rest =>
      c <- self_db_getitem collection_name ;;
      _ <- store attr_name c ;;
      inject_all rest
  end.

(** [Wrapped.__init__] *)
Definition multiple_init (with_crud : bool) (collections : list (string * string))
    (bases : list pyclass) : init_fn :=
  fun args kwargs =>
    _ <- init_bases bases args kwargs ;;
    _ <- inject_all collections ;;
    match with_crud, collections with
    | true, (_, first_collection) :: _ =>
        c <- self_db_getitem first_collection ;;
        store "collection" c
    | _, _ => ret tt
    end.

(** [', '.join(f"{k}='{v}'" for k, v in collections.items())] *)
Fixpoint collections_str (collections : list (string * string)) : string :=
  match collections with
  | [] => ""
  | [(k, v)] => k +:+ "='" +:+ v +:+ "'"
  | (k, v) :: rest => k +:+ "='" +:+ v +:+ "', " +:+ collections_str rest
  end.

Definition multiple_repr (cls : user_class) (with_crud : bool)
    (collections : list (string * string)) : string :=
  let crud_info := if with_crud then " with CRUD" else "" in
  uc_name cls +:+ "(collections={" +:+ collections_str collections +:+ "}"
    +:+ crud_info +:+ ")".

Definition multiple_wrapper (self : t) (with_crud : bool)
    (collections : list (string * string)) (cls : target) : res wrapped_class :=
  match cls with
  | TOther _ => Raise (Exn TypeError "Decorator can only be applied to classes" None)
  | TClass cls =>
      match probe_all self collections with
      | Raise e => Raise e
      | Ok _ =>
          let bases := base_classes cls with_crud in
          match wraps cls
                  {| w_name := "Wrapped";
                     w_bases := bases;
                     w_init := multiple_init with_crud collections bases;
                     w_repr := multiple_repr cls with_crud collections |} with
          | Raise e => Raise e
          | Ok W =>
              Ok {| w_name := uc_name cls;
                    w_bases := w_bases W;
                    w_init := w_init W;
                    w_repr := w_repr W |}
          end
      end
  end.

(** [def multiple_collections(self, with_crud=False, **collections)];
    the keyword arguments arrive in call order with distinct names. *)
Definition multiple_collections (self : t) (with_crud : option bool)
    (collections : list (string * string))
  : res (target -> res wrapped_class) :=
  let with_crud := default false with_crud in
  match collections with
  | [] => Raise (Exn ValueError "At least one collection must be specified" None)
  | _ => Ok (multiple_wrapper self with_crud collections)
  end.
End Decorators.

(** [functools.wraps] applied to a class: after the metadata is copied,
    [update_wrapper] calls [Wrapped.__dict__.update], and the [__dict__]
    of a class is a read-only [mappingproxy]. *)
Definition functools_wraps (cls : user_class) (W : wrapped_class) : res wrapped_class :=
  Raise (Exn AttributeError "'mappingproxy' object has no attribute 'update'" None).

(** A replacement for [wraps] that copies the class metadata and stops
    there. *)
Definition metadata_wraps (cls : user_class) (W : wrapped_class) : res wrapped_class :=
  Ok {| w_name := uc_name cls;
        w_bases := w_bases W;
        w_init := w_init W;
        w_repr := w_repr W |}.
End CollectionInjector.

(** ** An in-memory driver

    A small stand-in for the database driver, used to run the methods on
    concrete inputs: a store of documents per collection, equality
    filters, and cursors that are the list of documents they will
    yield. *)

Module MemDriver.

Fixpoint pyval_eqb (a b : pyval) : bool :=
  match a, b with
  | PNone, PNone => true
  | PBool x, PBool y => Bool.eqb x y
  | PInt x, PInt y => Z.eqb x y
  | PStr x, PStr y => String.eqb x y
  | PList xs, PList ys =>
      (fix go (xs ys : list pyval) : bool :=
         match xs, ys with
         | [], [] => true
         | x :: xs', y :: ys' => pyval_eqb x y && go xs' ys'
         | _, _ => false
         end) xs ys
  | PDict xs, PDict ys =>
      (fix go (xs ys : list (pyval * pyval)) : bool :=
         match xs, ys with
         | [], [] => true
         | (k, v) :: xs', (k', v') :: ys' =>
             pyval_eqb k k' && pyval_eqb v v' && go xs' ys'
         | _, _ => false
         end) xs ys
  | _, _ => false
  end.

(** A document matches a filter when it has every field of the filter
    with an equal value; [{}] matches every document. *)
Definition matches (query doc : pyval) : bool :=
  match query, doc with
  | PDict q, PDict d =>
      forallb (fun kv =>
                 match kv with
                 | (PStr k, v) =>
                     match dict_get d k with
                     | Some v' => pyval_eqb v v'
                     | None => false
                     end
                 | _ => false
                 end) q
  | _, _ => false
  end.

Definition store_t : Type := list (coll * list pyval).

Fixpoint docs_of (s : store_t) (c : coll) : list pyval :=
  match s with
  | [] => []
  | (c', docs) :: rest => if String.eqb c' c then docs else docs_of rest c
  end.

Fixpoint set_docs (s : store_t) (c : coll) (docs : list pyval) : store_t :=
  match s with
  | [] => [(c, docs)]
  | (c', old) :: rest =>
      if String.eqb c' c then (c, docs) :: rest else (c', old) :: set_docs rest c docs
  end.

Definition matching (s : store_t) (c : coll) (query : pyval) : list pyval :=
  filter (fun doc => matches query doc = true) (docs_of s c).

Fixpoint remove_first (query : pyval) (docs : list pyval) : list pyval :=
  match docs with
  | [] => []
  | d :: rest => if matches query d then rest else d :: remove_first query rest
  end.

(** [cursor.limit(n)]: a positive [n] keeps the first [n] documents,
    [0] keeps all, a negative [n] counts as its absolute value, and
    anything but an integer is rejected. *)
Definition limit_docs (docs : list pyval) (n : pyval) : res (list pyval) :=
  match n with
  | PInt n => if Z.eqb n 0 then Ok docs else Ok (firstn (Z.abs_nat n) docs)
  | _ => Raise (Exn TypeError "limit must be an integer" None)
  end.

Definition count_limited (docs : list pyval) (limit : option pyval) : res Z :=
  match limit with
  | None => Ok (Z.of_nat (length docs))
  | Some n => res_map (fun l => Z.of_nat (length l)) (limit_docs docs n)
  end.

#[export] Instance driver : Driver := {|
  dstate := store_t;
  cursor := list pyval;
  drv_insert_one := fun c data s => (Ok PNone, set_docs s c (docs_of s c ++ [data]));
  drv_insert_many := fun c data s =>
    match data with
    | PList docs => (Ok PNone, set_docs s c (docs_of s c ++ docs))
    | _ => (Raise (Exn TypeError "documents must be a non-empty list" None), s)
    end;
  drv_find_one := fun c query s =>
    (Ok (hd PNone (matching s c query)), s);
  drv_find := fun c query s => (Ok (matching s c query), s);
  drv_limit := fun cur n s => (limit_docs cur n, s);
  drv_iter := fun cur s => (Ok cur, s);
  drv_update_one := fun c query update s => (Ok PNone, s);
  drv_update_many := fun c query update s => (Ok PNone, s);
  drv_delete_one := fun c query s =>
    (Ok PNone, set_docs s c (remove_first query (docs_of s c)));
  drv_delete_many := fun c query s =>
    (Ok PNone,
     set_docs s c (filter (fun doc => matches query doc = false) (docs_of s c)));
  drv_count_documents := fun c query limit s =>
    (count_limited (matching s c query) limit, s)
|}.

Definition empty_world (s : store_t) : world driver := World s [].
End MemDriver.

(** ** What the methods rely on from a cursor *)

(** [docs[:n]] on a materialized result. *)
Definition py_take (n : Z) (v : pyval) : pyval :=
  match v with
  | PList docs => PList (firstn (Z.to_nat n) docs)
  | _ => v
  end.

(** The contract of [cursor.limit(n)] for a positive [n]: it succeeds
    without touching the driver's state, and the cursor it returns yields
    the first [n] documents of the cursor it was called on, in the same
    order. *)
Class LimitTruncates (D : Driver) : Prop :=
  limit_truncates :
    forall (cur : cursor) (n : Z) (s : dstate),
      0 < n ->
      exists cur' : cursor,
        drv_limit cur (PInt n) s = (Ok cur', s) /\
        forall s' : dstate,
          drv_iter cur' s' =
            (res_map (firstn (Z.to_nat n)) (fst (drv_iter cur s')), snd (drv_iter cur s')).

(** ** Concrete objects used in the examples *)

Module Fixtures.
Import CollectionInjector.

Definition alice : pyval := PDict [(PStr "name", PStr "alice")].
Definition bob : pyval := PDict [(PStr "name", PStr "bob")].

(** A store with two documents in collection [a] and none in [b]. *)
Definition two_docs : world MemDriver.driver :=
  MemDriver.empty_world [("a", [alice; bob]); ("b", [])].

(** An instance of a class that mixes in [CRUDMixin] and has no
    [collection] attribute. *)
Definition bare : instance :=
  {| type_name := "TestCRUDClass"; class_attrs := ∅; inst_dict := ∅ |}.

(** The same after [self.collection = None]. *)
Definition with_none : instance := setattr bare "collection" (OData PNone).

(** The same after [self.collection = <collection a>]. *)
Definition with_a : instance := setattr bare "collection" (OColl "a").

(** A database handle that knows the collections [a] and [b] and raises
    [KeyError] for every other name, like a [dict]. *)
Definition dict_db : obj :=
  ODb (fun name =>
         if String.eqb name "a" then Ok (OColl "a")
         else if String.eqb name "b" then Ok (OColl "b")
         else Raise (Exn KeyError name None)).

(** A database handle that rejects a name with an error of its own. *)
Definition strict_db : obj :=
  ODb (fun name =>
         if String.eqb name "a" then Ok (OColl "a")
         else Raise (Exn (OtherError "InvalidName")
                       "collection names must not contain '$'" None)).

Definition injector : t := Injector dict_db.
Definition strict_injector : t := Injector strict_db.

(** [class UserService: pass] *)
Definition UserService : user_class :=
  {| uc_name := "UserService"; uc_attrs := ∅; uc_init := None |}.

(** A class whose [__init__] takes no argument and stores a database
    handle of its own on the instance. *)
Definition OwnDb : user_class :=
  {| uc_name := "OwnDb";
     uc_attrs := ∅;
     uc_init := Some (fun args kwargs =>
                        match args, kwargs with
                        | [], [] => store "db" dict_db
                        | _, _ =>
                            raise (Exn TypeError
                              "OwnDb.__init__() takes 1 positional argument but 2 were given"
                              None)
                        end) |}.
End Fixtures.

(** ** Reading the log *)

Section Log.
Context {D : Driver}.

(** The collection a logged call was addressed to; calls on a cursor
    name none. *)
Definition call_coll (b : bcall D) : option coll :=
  match b with
  | BInsertOne c _ | BInsertMany c _ | BFindOne c _ | BFind c _
  | BUpdateOne c _ _ | BUpdateMany c _ _ | BDeleteOne c _ | BDeleteMany c _
  | BCountDocuments c _ _ => Some c
  | BLimit _ _ | BIter _ => None
  end.

(** Every logged call that names a collection names [c]. *)
Definition only_on (c : coll) (log : list (bcall D)) : Prop :=
  Forall (fun b => match call_coll b with Some c' => c' = c | None => True end) log.
End Log.

(** ** More classes for the examples *)

Module Samples.
Import CollectionInjector Fixtures.

(** A database handle that only knows the collection [b]. *)
Definition only_b_db : obj :=
  ODb (fun name =>
         if String.eqb name "b" then Ok (OColl "b")
         else Raise (Exn KeyError name None)).

(** [def __init__(self): raise ValueError("boom")] *)
Definition Failing : user_class :=
  {| uc_name := "Failing";
     uc_attrs := ∅;
     uc_init := Some (fun args kwargs => raise (Exn ValueError "boom" None)) |}.

(** An [__init__] that counts its calls in [self.calls] (a class
    attribute starts the count at 0), then raises [TypeError] when it got
    a positional argument, and otherwise stores a database handle. *)
Definition Counting : user_class :=
  {| uc_name := "Counting";
     uc_attrs := {["calls" := OData (PInt 0)]};
     uc_init := Some (fun args kwargs self =>
                        let n := match getattr self "calls" with
                                 | Some (OData (PInt n)) => n
                                 | _ => 0
                                 end in
                        let self1 := setattr self "calls" (OData (PInt (n + 1))) in
                        match args with
                        | [] => (Ok tt, setattr self1 "db" dict_db)
                        | _ => (Raise (Exn TypeError "unsupported operand" None), self1)
                        end) |}.

(** An [__init__] that raises [TypeError] however it is called. *)
Definition Broken : user_class :=
  {| uc_name := "Broken";
     uc_attrs := ∅;
     uc_init := Some (fun args kwargs => raise (Exn TypeError "broken" None)) |}.

(** An [__init__] that sets [self.collection], [self.tag] and a database
    handle itself. *)
Definition SetsCollection : user_class :=
  {| uc_name := "SetsCollection";
     uc_attrs := ∅;
     uc_init := Some (fun args kwargs =>
                        _ <- store "collection" (OData (PStr "mine")) ;;
                        _ <- store "tag" (OData (PInt 7)) ;;
                        store "db" dict_db) |}.

(** A fresh instance of [Counting], the same after a first call of its
    [__init__] with an argument, and after a second call without. *)
Definition counting_fresh : instance :=
  {| type_name := "Counting"; class_attrs := uc_attrs Counting; inst_dict := ∅ |}.
Definition counting_once : instance :=
  setattr counting_fresh "calls" (OData (PInt 1)).
Definition counting_twice : instance :=
  setattr (setattr counting_once "calls" (OData (PInt 2))) "db" dict_db.

(** [bare] after the [__init__] of [SetsCollection]. *)
Definition sets_collection_done : instance :=
  setattr (setattr (setattr bare "collection" (OData (PStr "mine")))
             "tag" (OData (PInt 7))) "db" dict_db.

(** An [__init__] that stores a handle which does not know [a]. *)
Definition OtherDb : user_class :=
  {| uc_name := "OtherDb";
     uc_attrs := ∅;
     uc_init := Some (fun args kwargs => store "db" only_b_db) |}.
End Samples.

(** * Properties of [CRUDMixin] *)

Section CRUDFacts.
Context {D : Driver}.
Import CRUDMixin.

Implicit Types (self : instance) (w : world D) (c : coll).

Lemma hasattr_false self name :
  hasattr self name = false -> getattr self name = None.
Proof. unfold hasattr. destruct (getattr self name); [discriminate | reflexivity]. Qed.

Lemma hasattr_true self name o :
  getattr self name = Some o -> hasattr self name = true.
Proof. unfold hasattr. intros ->. reflexivity. Qed.

Lemma collection_method_attr self o meth w :
  getattr self "collection" = Some o ->
  collection_method self meth w =
    match o with
    | OColl c => (Ok c, w)
    | _ => (Raise (no_attribute (obj_type_name o) meth), w)
    end.
Proof.
  intros Hget. unfold collection_method, bind, lift, load_attr.
  rewrite Hget. destruct o; reflexivity.
Qed.

(** Unfolds a method down to the guard and the attribute load. *)
Ltac open_method :=
  unfold invoke, count, create, create_many, find_by_id, find_one, find_many,
    find_all, update_by_id, update_one, update_many, delete_by_id, delete_one,
    delete_many, count_documents, exists_; simpl.

(** C1: each of the fifteen methods, called on an instance on which
    [hasattr(self, 'collection')] is false, raises the [AttributeError]
    of the guard and leaves the world as it was: neither the driver's
    state nor the log of boundary calls changes. *)
Theorem missing_collection_raises (op : crud_op) self w :
  hasattr self "collection" = false ->
  invoke op self w = (Raise no_collection, w).
Proof.
  intros Hno. destruct op; open_method; rewrite Hno; reflexivity.
Qed.

Lemma collection_find_attr self o (query : pyval) w :
  getattr self "collection" = Some o ->
  collection_find self query w =
    match o with
    | OColl c =>
        (res_map FCursor (fst (drv_find c query (drv w))),
         World (snd (drv_find c query (drv w))) (calls w ++ [BFind c query]))
    | OData (PStr s) =>
        match query with
        | PStr sub => (Ok (FInt (str_find s sub)), w)
        | _ => (Raise (Exn TypeError ("must be str, not " +:+ pyval_type_name query) None), w)
        end
    | _ => (Raise (no_attribute (obj_type_name o) "find"), w)
    end.
Proof.
  intros Hget. unfold collection_find, bind, lift, load_attr. rewrite Hget.
  destruct o as [v | c | g]; [| | reflexivity].
  - destruct v; try reflexivity. destruct query; reflexivity.
  - unfold boundary, ret. destruct (drv_find c query (drv w)) as [[cur | e] s1]; reflexivity.
Qed.

(** With a [collection] attribute that holds plain data other than a
    [str] ([None], a number, a [dict], ...), the guard passes and the
    method lookup on the attribute fails. *)
Lemma data_collection_raises (op : crud_op) self (v : pyval) w :
  getattr self "collection" = Some (OData v) ->
  (forall s, v <> PStr s) ->
  invoke op self w = (Raise (no_attribute (pyval_type_name v) (driver_method op)), w).
Proof.
  intros Hget Hnostr.
  assert (Hcm : forall meth,
             collection_method self meth w
             = (Raise (no_attribute (pyval_type_name v) meth), w)).
  { intros meth. rewrite (collection_method_attr _ _ _ _ Hget). reflexivity. }
  assert (Hcf : forall query,
             collection_find self query w
             = (Raise (no_attribute (pyval_type_name v) "find"), w)).
  { intros query. rewrite (collection_find_attr _ _ _ _ Hget).
    destruct v; try reflexivity. destruct (Hnostr s eq_refl). }
  destruct op; open_method; rewrite (hasattr_true _ _ _ Hget); simpl;
    unfold bind; rewrite ?Hcm, ?Hcf; reflexivity.
Qed.

(** With a [collection] attribute that holds a [str], every method but
    [find_many] and [find_all] fails at the method lookup; those two
    reach [str.find]: a filter that is not a non-empty [str] is a
    [TypeError], and the integer found for one that is has no [limit]
    and cannot be iterated.  The boundary is not reached. *)
Lemma str_collection_raises (op : crud_op) self (s : string) w :
  getattr self "collection" = Some (OData (PStr s)) ->
  invoke op self w =
    (Raise
       (match op with
        | OpFindMany query limit | OpFindAll query limit =>
            match py_or (default PNone query) (PDict []) with
            | PStr _ =>
                if truthy (default PNone limit) then no_attribute "int" "limit"
                else Exn TypeError "'int' object is not iterable" None
            | q => Exn TypeError ("must be str, not " +:+ pyval_type_name q) None
            end
        | _ => no_attribute "str" (driver_method op)
        end), w).
Proof.
  intros Hget.
  assert (Hcm : forall meth,
             collection_method self meth w = (Raise (no_attribute "str" meth), w)).
  { intros meth. rewrite (collection_method_attr _ _ _ _ Hget). reflexivity. }
  destruct op; open_method; rewrite (hasattr_true _ _ _ Hget); simpl;
    unfold bind; rewrite ?Hcm; try reflexivity;
    rewrite (collection_find_attr _ _ _ _ Hget);
    destruct (py_or (default PNone query) (PDict [])); try reflexivity;
    destruct (truthy (default PNone limit)); reflexivity.
Qed.

(** C3, as the code has it: after [self.collection = None] every method
    raises an [AttributeError], the one Python raises for the method
    lookup on [None], and leaves the world as it was. *)
Theorem none_collection_raises (op : crud_op) self w :
  getattr self "collection" = Some (OData PNone) ->
  invoke op self w = (Raise (no_attribute "NoneType" (driver_method op)), w)
  /\ exn_cls (no_attribute "NoneType" (driver_method op)) = AttributeError.
Proof.
  intros Hget. split; [| reflexivity].
  apply (data_collection_raises op self PNone w Hget).
  intros s H. discriminate H.
Qed.

Lemma resolved_guard self c :
  getattr self "collection" = Some (OColl c) ->
  negb (hasattr self "collection") = false.
Proof. intros Hget. rewrite (hasattr_true _ _ _ Hget). reflexivity. Qed.

Lemma resolved_method self c meth w :
  getattr self "collection" = Some (OColl c) ->
  collection_method self meth w = (Ok c, w).
Proof. intros Hget. rewrite (collection_method_attr _ _ _ _ Hget). reflexivity. Qed.

(** [find_all] repeats [find_many] line for line. *)
Lemma find_all_find_many self query limit :
  find_all self query limit = find_many self query limit.
Proof. reflexivity. Qed.

(** What [find_many] does on a resolved collection, step by step. *)
Lemma find_many_resolved self c query limit w :
  getattr self "collection" = Some (OColl c) ->
  let q := py_or (default PNone query) (PDict []) in
  let l := default PNone limit in
  find_many self query limit w =
    match drv_find c q (drv w) with
    | (Raise e, s1) => (Raise e, World s1 (calls w ++ [BFind c q]))
    | (Ok cur, s1) =>
        if truthy l then
          match drv_limit cur l s1 with
          | (Raise e, s2) =>
              (Raise e, World s2 ((calls w ++ [BFind c q]) ++ [BLimit cur l]))
          | (Ok cur', s2) =>
              (res_map PList (fst (drv_iter cur' s2)),
               World (snd (drv_iter cur' s2))
                 (((calls w ++ [BFind c q]) ++ [BLimit cur l]) ++ [BIter cur']))
          end
        else
          (res_map PList (fst (drv_iter cur s1)),
           World (snd (drv_iter cur s1)) ((calls w ++ [BFind c q]) ++ [BIter cur]))
    end.
Proof.
  intros Hget q l. unfold find_many. fold q l.
  rewrite (resolved_guard _ _ Hget). unfold bind at 1.
  rewrite (collection_find_attr _ _ _ _ Hget).
  destruct (drv_find c q (drv w)) as [[cur | e] s1]; [| reflexivity].
  simpl. unfold bind at 1. unfold cursor_limit, list_cursor.
  destruct (truthy l); unfold bind, boundary, ret; simpl.
  - destruct (drv_limit cur l s1) as [[cur' | e] s2]; [| reflexivity]. simpl.
    destruct (drv_iter cur' s2) as [[docs | e] s3]; reflexivity.
  - destruct (drv_iter cur s1) as [[docs | e] s3]; reflexivity.
Qed.

(** C10: on a resolved collection a falsy limit ([None], [0], ...)
    issues no [limit] call: the filter goes to [find], the cursor is
    iterated as it is and every document it yields is returned; and a
    falsy filter ([None], [{}], ...) reaches [find] as [{}].  The same
    holds for [find_all]. *)
Theorem falsy_limit_and_filter self c (query : option pyval) (limit : pyval) w :
  getattr self "collection" = Some (OColl c) ->
  truthy limit = false ->
  let q := py_or (default PNone query) (PDict []) in
  let uncapped :=
    match drv_find c q (drv w) with
    | (Raise e, s1) => (Raise e, World s1 (calls w ++ [BFind c q]))
    | (Ok cur, s1) =>
        (res_map PList (fst (drv_iter cur s1)),
         World (snd (drv_iter cur s1)) ((calls w ++ [BFind c q]) ++ [BIter cur]))
    end in
  find_many self query (Some limit) w = uncapped
  /\ find_all self query (Some limit) w = uncapped
  /\ find_many self query None w = uncapped
  /\ (truthy (default PNone query) = false -> q = PDict []).
Proof.
  intros Hget Hfalsy q uncapped.
  assert (Hsome : find_many self query (Some limit) w = uncapped).
  { rewrite (find_many_resolved _ _ _ _ _ Hget). simpl. rewrite Hfalsy.
    reflexivity. }
  repeat split.
  - exact Hsome.
  - rewrite find_all_find_many. exact Hsome.
  - rewrite (find_many_resolved _ _ _ _ _ Hget). reflexivity.
  - intros Hq. unfold q, py_or. rewrite Hq. reflexivity.
Qed.

(** Leaving the filter out and passing [{}] are the same call, whatever
    the limit and the instance. *)
Lemma no_filter_is_match_all self (limit : option pyval) :
  find_many self None limit = find_many self (Some (PDict [])) limit
  /\ find_all self None limit = find_all self (Some (PDict [])) limit.
Proof. split; reflexivity. Qed.

(** C6, as the code has it: no filter and [{}] are the same call; and,
    with a driver whose [limit] keeps the first [n] documents, a
    positive limit [n] returns the first [n] documents of what the call
    without a limit returns, in the same order, and leaves the driver
    in the same state. *)
Theorem positive_limit_caps `{!LimitTruncates D} self c (query : option pyval)
    (n : Z) w :
  getattr self "collection" = Some (OColl c) ->
  0 < n ->
  (forall limit, find_many self None limit w = find_many self (Some (PDict [])) limit w)
  /\ (forall limit, find_all self None limit w = find_all self (Some (PDict [])) limit w)
  /\ fst (find_many self query (Some (PInt n)) w)
     = res_map (py_take n) (fst (find_many self query None w))
  /\ drv (snd (find_many self query (Some (PInt n)) w))
     = drv (snd (find_many self query None w))
  /\ fst (find_all self query (Some (PInt n)) w)
     = res_map (py_take n) (fst (find_all self query None w))
  /\ drv (snd (find_all self query (Some (PInt n)) w))
     = drv (snd (find_all self query None w)).
Proof.
  intros Hget Hpos.
  assert (Hmany :
    fst (find_many self query (Some (PInt n)) w)
      = res_map (py_take n) (fst (find_many self query None w))
    /\ drv (snd (find_many self query (Some (PInt n)) w))
      = drv (snd (find_many self query None w))).
  { rewrite !(find_many_resolved _ _ _ _ _ Hget). simpl.
    assert (Hnz : negb (Z.eqb n 0) = true).
    { apply negb_true_iff, Z.eqb_neq. lia. }
    rewrite Hnz.
    destruct (drv_find c _ (drv w)) as [[cur | e] s1]; [| split; reflexivity].
    destruct (limit_truncates cur n s1 Hpos) as (cur' & Hlim & Hiter).
    rewrite Hlim, Hiter. simpl.
    destruct (drv_iter cur s1) as [[docs | e] s2]; split; reflexivity. }
  destruct Hmany as [Hres Hdrv].
  repeat split; try reflexivity; rewrite ?find_all_find_many; assumption.
Qed.

(** [count] hands its argument to whatever [self.count_documents]
    resolves to. *)
Lemma count_dispatches (f : instance -> option pyval -> M D pyval) self query :
  count f self query = f self (Some (default PNone query)).
Proof. reflexivity. Qed.

(** C8: for every filter, given or left out, every instance and every
    state of the world, [count] and [count_documents] return the same
    value or raise the same exception, and leave the same driver state
    and the same log of boundary calls. *)
Theorem count_is_count_documents self (query : option pyval) w :
  count count_documents self query w = count_documents self query w.
Proof. destruct query; reflexivity. Qed.

(** C7: on a resolved collection [exists] issues exactly one boundary
    call, [count_documents(query, limit=1)], and returns [True] exactly
    when the count that call reports is at least 1. *)
Theorem exists_counts_with_limit_one self c (query : pyval) w :
  getattr self "collection" = Some (OColl c) ->
  exists_ self query w =
    (res_map (fun n => PBool (Z.leb 1 n))
       (fst (drv_count_documents c query (Some (PInt 1)) (drv w))),
     World (snd (drv_count_documents c query (Some (PInt 1)) (drv w)))
       (calls w ++ [BCountDocuments c query (Some (PInt 1))])).
Proof.
  intros Hget. unfold exists_.
  rewrite (resolved_guard _ _ Hget). unfold bind at 1.
  rewrite (resolved_method _ _ _ _ Hget).
  unfold bind, boundary, ret; simpl.
  destruct (drv_count_documents c query (Some (PInt 1)) (drv w)) as [[n | e] s];
    simpl; [| reflexivity].
  replace (Z.ltb 0 n) with (Z.leb 1 n); [reflexivity |].
  destruct (Z.leb_spec 1 n), (Z.ltb_spec 0 n); (reflexivity || lia).
Qed.
End CRUDFacts.

(** ** The methods on the in-memory driver *)

Import CRUDMixin Fixtures.

Lemma mem_driver_limit_truncates : LimitTruncates MemDriver.driver.
Proof.
  intros cur n s Hpos. exists (firstn (Z.to_nat n) cur). split.
  - simpl. unfold MemDriver.limit_docs.
    destruct (Z.eqb_spec n 0) as [-> | _]; [lia |].
    rewrite Zabs2Nat.abs_nat_nonneg by lia. reflexivity.
  - intros s'. reflexivity.
Qed.

Lemma missing_collection_raises_witness :
  hasattr bare "collection" = false /\
  invoke (OpFindMany None (Some (PInt 3))) bare two_docs = (Raise no_collection, two_docs).
Proof.
  split; [reflexivity |].
  apply (missing_collection_raises (OpFindMany None (Some (PInt 3))) bare two_docs).
  reflexivity.
Defined.

Lemma none_collection_raises_witness :
  getattr with_none "collection" = Some (OData PNone) /\
  invoke (OpExists alice) with_none two_docs
    = (Raise (no_attribute "NoneType" "count_documents"), two_docs).
Proof.
  split; [reflexivity |].
  apply (none_collection_raises (OpExists alice) with_none two_docs).
  reflexivity.
Defined.

(** C3, as stated, fails: with [collection] set to [None], [create] raises
    Python's error for the method lookup on [None], which is not the
    error of the guard that an instance without the attribute gets. *)
Lemma none_collection_not_guard_error :
  getattr with_none "collection" = Some (OData PNone)
  /\ fst (invoke (OpCreate alice) bare two_docs) = Raise no_collection
  /\ fst (invoke (OpCreate alice) with_none two_docs)
     = Raise (Exn AttributeError "'NoneType' object has no attribute 'insert_one'" None)
  /\ fst (invoke (OpCreate alice) with_none two_docs)
     <> fst (invoke (OpCreate alice) bare two_docs).
Proof.
  repeat split; try reflexivity.
  intros H. discriminate H.
Qed.

Lemma falsy_limit_and_filter_witness :
  getattr with_a "collection" = Some (OColl "a")
  /\ truthy (PInt 0) = false
  /\ find_many with_a None (Some (PInt 0)) two_docs
     = (Ok (PList [alice; bob]),
        World (drv two_docs)
          [BFind "a" (PDict []); BIter (D := MemDriver.driver) [alice; bob]]).
Proof.
  split; [reflexivity |]. split; [reflexivity |].
  exact (proj1 (falsy_limit_and_filter with_a "a" None (PInt 0) two_docs
                  eq_refl eq_refl)).
Defined.

(** C6, as stated, fails at the limit [0]: two documents come back. *)
Lemma zero_limit_not_capped :
  getattr with_a "collection" = Some (OColl "a")
  /\ fst (find_many with_a None (Some (PInt 0)) two_docs) = Ok (PList [alice; bob])
  /\ fst (find_all with_a None (Some (PInt 0)) two_docs) = Ok (PList [alice; bob])
  /\ ~ (Z.of_nat (length [alice; bob]) <= 0).
Proof.
  repeat split; try reflexivity. simpl. lia.
Qed.

Lemma positive_limit_caps_witness :
  getattr with_a "collection" = Some (OColl "a")
  /\ 0 < 1
  /\ fst (find_many with_a None (Some (PInt 1)) two_docs)
     = res_map (py_take 1) (fst (find_many with_a None None two_docs))
  /\ fst (find_many with_a None (Some (PInt 1)) two_docs) = Ok (PList [alice]).
Proof.
  split; [reflexivity |]. split; [lia |]. split; [| reflexivity].
  exact (proj1 (proj2 (proj2
           (positive_limit_caps (LimitTruncates0 := mem_driver_limit_truncates)
              with_a "a" None 1 two_docs eq_refl eq_refl)))).
Defined.

Lemma exists_counts_with_limit_one_witness :
  getattr with_a "collection" = Some (OColl "a")
  /\ exists_ with_a alice two_docs
     = (Ok (PBool true),
        World (drv two_docs) [BCountDocuments "a" alice (Some (PInt 1))]).
Proof.
  split; [reflexivity |].
  exact (exists_counts_with_limit_one with_a "a" alice two_docs eq_refl).
Defined.

(** * Properties of [CollectionInjector] *)

Import CollectionInjector.

Section InjectorFacts.
Variable wraps : user_class -> wrapped_class -> res wrapped_class.

Lemma probe_failure (self : t) (name : string) (e : exn) :
  py_getitem (db self) name = Raise e ->
  probe self name =
    Raise (match exn_cls e with
           | KeyError | AttributeError => not_accessible name e
           | _ => e
           end).
Proof. intros Hget. unfold probe. rewrite Hget. destruct (exn_cls e); reflexivity. Qed.

Lemma probe_success (self : t) (name : string) (o : obj) :
  py_getitem (db self) name = Ok o -> probe self name = Ok tt.
Proof. intros Hget. unfold probe. rewrite Hget. reflexivity. Qed.

Lemma collection_accepts (self : t) (name : string) (with_crud : option bool) :
  name <> "" ->
  collection wraps self (OData (PStr name)) with_crud
    = Ok (collection_wrapper wraps self name (default true with_crud)).
Proof.
  intros Hne. unfold collection. simpl.
  destruct (String.eqb_spec name "") as [-> | _]; [congruence | reflexivity].
Qed.

(** C2, as the code has it: when [db[name]] raises [KeyError] or
    [AttributeError], applying the decorator to a class raises the
    [KeyError] "Collection '<name>' not accessible in database",
    chained to the original; when it raises anything else, that
    exception comes out unchanged.  Either way the decorator returns no
    class, so there is nothing to construct. *)
Theorem failed_lookup_rejected (self : t) (name : string)
    (with_crud : option bool) (cls : user_class) (e : exn) :
  name <> "" ->
  py_getitem (db self) name = Raise e ->
  exists wrapper,
    collection wraps self (OData (PStr name)) with_crud = Ok wrapper
    /\ (exn_cls e = KeyError \/ exn_cls e = AttributeError ->
        wrapper (TClass cls) = Raise (not_accessible name e)
        /\ exn_cls (not_accessible name e) = KeyError)
    /\ (exn_cls e <> KeyError -> exn_cls e <> AttributeError ->
        wrapper (TClass cls) = Raise e)
    /\ (forall W, wrapper (TClass cls) <> Ok W).
Proof.
  intros Hne Hget. eexists. split; [apply (collection_accepts _ _ _ Hne) |].
  unfold collection_wrapper. rewrite (probe_failure _ _ _ Hget).
  repeat split.
  - destruct H as [-> | ->]; reflexivity.
  - intros H1 H2. destruct (exn_cls e); congruence.
  - intros W H. discriminate H.
Qed.

(** C9: leaving [with_crud] out of [collection] is passing [True],
    leaving it out of [multiple_collections] is passing [False].  So,
    with a [wraps] that hands back the class it is given with its bases,
    every class the decorator of [collection(name)] returns has the
    decorated class and [CRUDMixin] as its bases, and every class the
    decorator of [multiple_collections(...)] returns has the decorated
    class as its only base; passing the flag turns each around. *)
Theorem with_crud_defaults (self : t) (name : obj)
    (collections : list (string * string)) (cls : target) (W : wrapped_class) :
  (forall u W0 W1, wraps u W0 = Ok W1 -> w_bases W1 = w_bases W0) ->
  collection wraps self name None = collection wraps self name (Some true)
  /\ multiple_collections wraps self None collections
     = multiple_collections wraps self (Some false) collections
  /\ (forall wrapper,
        collection wraps self name None = Ok wrapper ->
        wrapper cls = Ok W ->
        exists u, cls = TClass u
                  /\ w_bases W = [ClsUser u; ClsCRUDMixin] /\ has_crud W = true)
  /\ (forall wrapper,
        multiple_collections wraps self None collections = Ok wrapper ->
        wrapper cls = Ok W ->
        exists u, cls = TClass u /\ w_bases W = [ClsUser u] /\ has_crud W = false)
  /\ (forall wrapper,
        collection wraps self name (Some false) = Ok wrapper ->
        wrapper cls = Ok W ->
        exists u, cls = TClass u /\ w_bases W = [ClsUser u] /\ has_crud W = false)
  /\ (forall wrapper,
        multiple_collections wraps self (Some true) collections = Ok wrapper ->
        wrapper cls = Ok W ->
        exists u, cls = TClass u
                  /\ w_bases W = [ClsUser u; ClsCRUDMixin] /\ has_crud W = true).
Proof.
  intros Hwraps.
  assert (Hone : forall s with_crud,
    collection_wrapper wraps self s with_crud cls = Ok W ->
    exists u, cls = TClass u /\ w_bases W = base_classes u with_crud).
  { intros s with_crud H. destruct cls as [u | o]; [| discriminate H].
    exists u. split; [reflexivity |]. simpl in H.
    destruct (probe self s) as [[] | e]; [| discriminate H].
    destruct (wraps u _) as [W1 | e] eqn:Hw; [| discriminate H].
    injection H as <-. simpl. exact (Hwraps _ _ _ Hw). }
  assert (Hmany : forall with_crud,
    multiple_wrapper wraps self with_crud collections cls = Ok W ->
    exists u, cls = TClass u /\ w_bases W = base_classes u with_crud).
  { intros with_crud H. destruct cls as [u | o]; [| discriminate H].
    exists u. split; [reflexivity |]. simpl in H.
    destruct (probe_all self collections) as [[] | e]; [| discriminate H].
    destruct (wraps u _) as [W1 | e] eqn:Hw; [| discriminate H].
    injection H as <-. simpl. exact (Hwraps _ _ _ Hw). }
  assert (Hcoll : forall with_crud wrapper,
    collection wraps self name with_crud = Ok wrapper ->
    wrapper cls = Ok W ->
    exists u, cls = TClass u /\ w_bases W = base_classes u (default true with_crud)).
  { intros with_crud wrapper Hdeco Happ. unfold collection in Hdeco.
    destruct name as [[| | | s | |] | |]; try discriminate Hdeco.
    destruct (negb (truthy (PStr s))); [discriminate Hdeco |].
    injection Hdeco as <-. exact (Hone s _ Happ). }
  assert (Hmult : forall with_crud wrapper,
    multiple_collections wraps self with_crud collections = Ok wrapper ->
    wrapper cls = Ok W ->
    exists u, cls = TClass u /\ w_bases W = base_classes u (default false with_crud)).
  { intros with_crud wrapper Hdeco Happ. unfold multiple_collections in Hdeco.
    destruct collections as [| kv rest]; [discriminate Hdeco |].
    injection Hdeco as <-. exact (Hmany _ Happ). }
  assert (Hcrud : forall u b, w_bases W = base_classes u b -> has_crud W = b).
  { intros u b Hb. unfold has_crud. rewrite Hb. destruct b; reflexivity. }
  split; [reflexivity |]. split; [reflexivity |].
  repeat split; intros wrapper Hdeco Happ;
    (destruct (Hcoll _ _ Hdeco Happ) as (u & -> & Hb)
     || destruct (Hmult _ _ Hdeco Happ) as (u & -> & Hb));
    exists u; (split; [reflexivity |]); (split; [exact Hb | exact (Hcrud _ _ Hb)]).
Qed.

(** *** Construction *)

Lemma getattr_setattr_eq (self : instance) (a : string) (o : obj) :
  getattr (setattr self a o) a = Some o.
Proof. unfold getattr, setattr; simpl. rewrite lookup_insert_eq. reflexivity. Qed.

Lemma getattr_setattr_ne (self : instance) (a b : string) (o : obj) :
  a <> b -> getattr (setattr self a o) b = getattr self b.
Proof.
  intros Hne. unfold getattr, setattr; simpl.
  rewrite lookup_insert_ne by exact Hne. reflexivity.
Qed.

(** The instance handed to [__init__] has an empty [__dict__]: it has
    an attribute only if the decorated class sets it at class level. *)
Lemma new_instance_getattr (W : wrapped_class) (a : string) :
  getattr (new_instance W) a = bases_data (w_bases W) !! a.
Proof. unfold getattr, new_instance; simpl. rewrite lookup_empty. reflexivity. Qed.

(** A class without an [__init__] of its own accepts any arguments
    under the wrapper: [object.__init__] rejects them with [TypeError]
    and is called again without. *)
Lemma init_bases_plain (cls : user_class) (with_crud : bool) args kwargs self :
  uc_init cls = None ->
  init_bases (base_classes cls with_crud) args kwargs self = (Ok tt, self).
Proof.
  intros Hinit. unfold base_classes. simpl. rewrite Hinit. simpl.
  destruct with_crud, args, kwargs; reflexivity.
Qed.

(** The tolerance rule for one base: a [TypeError] from [__init__]
    called with the arguments leads to a second call without them. *)
Lemma init_bases_retry (base : pyclass) rest args kwargs self e self1 self2 :
  is_object base = false ->
  class_init base args kwargs self = (Raise e, self1) ->
  exn_cls e = TypeError ->
  class_init base [] [] self1 = (Ok tt, self2) ->
  init_bases (base :: rest) args kwargs self = init_bases rest args kwargs self2.
Proof.
  intros Hobj Hfirst Hcls Hsecond. simpl.
  rewrite Hfirst, Hcls, Hobj. simpl. rewrite Hsecond. reflexivity.
Qed.

(** The last statement of [Wrapped.__init__] in [collection]: the
    database handle is read from the instance. *)
Lemma collection_init_after_bases (name : string) bases args kwargs self r self' :
  init_bases bases args kwargs self = (r, self') ->
  collection_init name bases args kwargs self =
    match r with
    | Raise e => (Raise e, self')
    | Ok _ =>
        match getattr self' "db" with
        | None => (Raise (no_attribute (type_name self') "db"), self')
        | Some d =>
            match py_getitem d name with
            | Ok c => (Ok tt, setattr self' "collection" c)
            | Raise e => (Raise e, self')
            end
        end
    end.
Proof.
  intros Hbases. unfold collection_init, bind. rewrite Hbases.
  destruct r as [[] | e]; [| reflexivity].
  unfold self_db_getitem, load_attr.
  destruct (getattr self' "db") as [d |]; [| reflexivity].
  destruct (py_getitem d name); reflexivity.
Qed.

(** Without a [db] attribute on the instance, construction stops at the
    injection with an [AttributeError]. *)
Lemma collection_init_needs_db (name : string) bases args kwargs self self' :
  init_bases bases args kwargs self = (Ok tt, self') ->
  getattr self' "db" = None ->
  collection_init name bases args kwargs self
    = (Raise (no_attribute (type_name self') "db"), self').
Proof.
  intros Hbases Hdb.
  rewrite (collection_init_after_bases _ _ _ _ _ _ _ Hbases), Hdb. reflexivity.
Qed.

(** With a [db] attribute on the instance that resolves the name, the
    injection is the last write and stores what that handle returns. *)
Lemma collection_init_with_db (name : string) bases args kwargs self self' d c :
  init_bases bases args kwargs self = (Ok tt, self') ->
  getattr self' "db" = Some d ->
  py_getitem d name = Ok c ->
  collection_init name bases args kwargs self = (Ok tt, setattr self' "collection" c).
Proof.
  intros Hbases Hdb Hget.
  rewrite (collection_init_after_bases _ _ _ _ _ _ _ Hbases), Hdb, Hget. reflexivity.
Qed.
End InjectorFacts.

(** A class that defines no [__init__] and no [db], decorated by
    [collection] with a name the injector's database knows: every
    construction raises, whatever the arguments. *)
Lemma plain_class_cannot_be_constructed (self : t) (name : string)
    (with_crud : bool) (cls : user_class) (c : obj) args kwargs :
  py_getitem (db self) name = Ok c ->
  uc_init cls = None ->
  uc_attrs cls !! "db" = None ->
  exists W,
    collection_wrapper metadata_wraps self name with_crud (TClass cls) = Ok W
    /\ construct W args kwargs = Raise (no_attribute (uc_name cls) "db").
Proof.
  intros Hprobe Hinit Hattr. eexists. split.
  - unfold collection_wrapper. rewrite (probe_success _ _ _ Hprobe). reflexivity.
  - unfold construct; simpl.
    rewrite (collection_init_needs_db name _ args kwargs _ _
               (init_bases_plain cls with_crud args kwargs _ Hinit)).
    + reflexivity.
    + rewrite new_instance_getattr. simpl.
      destruct with_crud; simpl; rewrite lookup_union, Hattr, ?lookup_empty;
        reflexivity.
Qed.

Lemma with_crud_defaults_witness :
  (forall u W0 W1, metadata_wraps u W0 = Ok W1 -> w_bases W1 = w_bases W0)
  /\ (exists wrapper W,
        collection metadata_wraps injector (OData (PStr "a")) None = Ok wrapper
        /\ wrapper (TClass OwnDb) = Ok W
        /\ w_bases W = [ClsUser OwnDb; ClsCRUDMixin] /\ has_crud W = true)
  /\ (exists wrapper W,
        multiple_collections metadata_wraps injector None [("primary", "a")] = Ok wrapper
        /\ wrapper (TClass OwnDb) = Ok W
        /\ w_bases W = [ClsUser OwnDb] /\ has_crud W = false).
Proof.
  assert (Hw : forall u W0 W1, metadata_wraps u W0 = Ok W1 -> w_bases W1 = w_bases W0).
  { intros u W0 W1 H. injection H as <-. reflexivity. }
  split; [exact Hw |]. split.
  - do 2 eexists. split; [reflexivity |]. split; [reflexivity |].
    destruct (proj1 (proj2 (proj2
                (with_crud_defaults metadata_wraps injector (OData (PStr "a"))
                   [("primary", "a")] (TClass OwnDb) _ Hw))) _ eq_refl eq_refl)
      as (u & Hu & Hb & Hc).
    injection Hu as <-. split; [exact Hb | exact Hc].
  - do 2 eexists. split; [reflexivity |]. split; [reflexivity |].
    destruct (proj1 (proj2 (proj2 (proj2
                (with_crud_defaults metadata_wraps injector (OData (PStr "a"))
                   [("primary", "a")] (TClass OwnDb) _ Hw)))) _ eq_refl eq_refl)
      as (u & Hu & Hb & Hc).
    injection Hu as <-. split; [exact Hb | exact Hc].
Defined.

(** C4 on a concrete class: [@injector.collection('a')] over
    [class UserService: pass], with an injector whose database has the
    collection.  With a [wraps] that accepts classes the decorator returns
    a class, and constructing it raises [AttributeError] for [db]; with
    [functools.wraps] the decorator itself raises. *)
Theorem collection_construct_user_service :
  (exists wrapper W,
      collection metadata_wraps injector (OData (PStr "a")) None = Ok wrapper
      /\ wrapper (TClass UserService) = Ok W
      /\ construct W [] []
         = Raise (Exn AttributeError "'UserService' object has no attribute 'db'" None))
  /\ (exists wrapper,
      collection functools_wraps injector (OData (PStr "a")) None = Ok wrapper
      /\ wrapper (TClass UserService)
         = Raise (Exn AttributeError "'mappingproxy' object has no attribute 'update'"
                    None)).
Proof.
  split.
  - do 2 eexists. split; [reflexivity |]. split; reflexivity.
  - eexists. split; reflexivity.
Qed.

(** What the same decorator does for a class whose [__init__] puts a
    database handle on the instance: the user's [__init__] runs first and
    sees no [collection]; a rejected argument list is retried without
    arguments; the collection comes from the instance's own handle. *)
Example collection_construct_own_db :
  exists wrapper W self,
    collection metadata_wraps injector (OData (PStr "a")) None = Ok wrapper
    /\ wrapper (TClass OwnDb) = Ok W
    /\ hasattr (new_instance W) "collection" = false
    /\ construct W [PInt 1] [] = Ok self
    /\ getattr self "collection" = Some (OColl "a")
    /\ w_repr W = "OwnDb(collection='a' with CRUD)".
Proof.
  do 3 eexists. split; [reflexivity |]. split; [reflexivity |].
  split; [reflexivity |]. split; [reflexivity |]. split; reflexivity.
Qed.

(** C2, as stated, fails: a lookup that raises the driver's own error
    for the name reaches the caller as that error, not as [KeyError]. *)
Lemma driver_error_not_translated :
  py_getitem (db strict_injector) "x$y"
    = Raise (Exn (OtherError "InvalidName") "collection names must not contain '$'" None)
  /\ exists wrapper,
      collection functools_wraps strict_injector (OData (PStr "x$y")) None = Ok wrapper
      /\ wrapper (TClass UserService)
         = Raise (Exn (OtherError "InvalidName")
                    "collection names must not contain '$'" None)
      /\ forall e, wrapper (TClass UserService) = Raise e -> exn_cls e <> KeyError.
Proof.
  split; [reflexivity |]. eexists. split; [reflexivity |]. split; [reflexivity |].
  intros e H. injection H as <-. discriminate.
Qed.

Lemma failed_lookup_rejected_witness :
  "zzz" <> ""
  /\ py_getitem (db injector) "zzz" = Raise (Exn KeyError "zzz" None)
  /\ exists wrapper,
      collection functools_wraps injector (OData (PStr "zzz")) None = Ok wrapper
      /\ wrapper (TClass UserService)
         = Raise (Exn KeyError "Collection 'zzz' not accessible in database"
                    (Some (Exn KeyError "zzz" None))).
Proof.
  assert (Hne : "zzz" <> "") by discriminate.
  split; [exact Hne |]. split; [reflexivity |].
  destruct (failed_lookup_rejected functools_wraps injector "zzz" None UserService
              (Exn KeyError "zzz" None) Hne eq_refl)
    as (wrapper & Hdeco & Hkey & _ & _).
  exists wrapper. split; [exact Hdeco |].
  exact (proj1 (Hkey (or_introl eq_refl))).
Defined.

(** *** [multiple_collections] *)

(** The injection loop stops at its first entry when the instance has no
    [db] attribute. *)
Lemma inject_all_needs_db (kv : string * string) (collections : list (string * string))
    (self : instance) :
  getattr self "db" = None ->
  inject_all (kv :: collections) self = (Raise (no_attribute (type_name self) "db"), self).
Proof.
  intros Hdb. destruct kv as [attr_name collection_name]. simpl.
  unfold bind, self_db_getitem, load_attr. rewrite Hdb. reflexivity.
Qed.


(** C5 on a concrete class: [multiple_collections(with_crud=True,
    primary='a', secondary='b')] over [class UserService: pass], with an
    injector whose database has both collections.  With a [wraps] that
    accepts classes the decorator returns a class with [CRUDMixin], and
    constructing it raises [AttributeError] for [db] before any attribute
    is assigned; with [functools.wraps] the decorator itself raises. *)
Theorem multiple_construct_user_service :
  (exists wrapper W,
      multiple_collections metadata_wraps injector (Some true)
        [("primary", "a"); ("secondary", "b")] = Ok wrapper
      /\ wrapper (TClass UserService) = Ok W
      /\ has_crud W = true
      /\ w_init W [] [] (new_instance W)
         = (Raise (Exn AttributeError "'UserService' object has no attribute 'db'" None),
            new_instance W)
      /\ construct W [] []
         = Raise (Exn AttributeError "'UserService' object has no attribute 'db'" None))
  /\ (exists wrapper,
      multiple_collections functools_wraps injector (Some true)
        [("primary", "a"); ("secondary", "b")] = Ok wrapper
      /\ wrapper (TClass UserService)
         = Raise (Exn AttributeError "'mappingproxy' object has no attribute 'update'"
                    None)).
Proof.
  split.
  - do 2 eexists. split; [reflexivity |]. split; [reflexivity |].
    split; [reflexivity |]. split; reflexivity.
  - eexists. split; reflexivity.
Qed.

(** What the same decorator does for a class whose [__init__] puts a
    database handle on the instance: each declared attribute holds its
    own collection, the first declared one is also the default, [create]
    inserts into it and into no other. *)
Example multiple_construct_own_db :
  exists wrapper W self,
    multiple_collections metadata_wraps injector (Some true)
      [("primary", "a"); ("secondary", "b")] = Ok wrapper
    /\ wrapper (TClass OwnDb) = Ok W
    /\ construct W [] [] = Ok self
    /\ getattr self "primary" = Some (OColl "a")
    /\ getattr self "secondary" = Some (OColl "b")
    /\ getattr self "collection" = Some (OColl "a")
    /\ calls (snd (create self alice two_docs)) = [BInsertOne "a" alice]
    /\ w_repr W = "OwnDb(collections={primary='a', secondary='b'} with CRUD)".
Proof.
  do 3 eexists. split; [reflexivity |]. split; [reflexivity |].
  split; [reflexivity |]. repeat split; reflexivity.
Qed.

(** Without the capability set no default collection is assigned. *)
Example multiple_construct_no_crud :
  exists wrapper W self,
    multiple_collections metadata_wraps injector None
      [("primary", "a"); ("secondary", "b")] = Ok wrapper
    /\ wrapper (TClass OwnDb) = Ok W
    /\ has_crud W = false
    /\ construct W [] [] = Ok self
    /\ getattr self "secondary" = Some (OColl "b")
    /\ getattr self "collection" = None.
Proof.
  do 3 eexists. split; [reflexivity |]. split; [reflexivity |].
  split; [reflexivity |]. split; [reflexivity |]. split; reflexivity.
Qed.

(** * Further properties of [CRUDMixin] *)

Section CRUDMore.
Context {D : Driver}.

Implicit Types (self : instance) (w : world D) (c : coll).

(** The three methods that take an identifier are the filter methods
    called with the filter [{"_id": doc_id}]: same guard, same boundary
    call, same result. *)
Theorem by_id_is_filter self (doc_id update_data : pyval) :
  find_by_id self doc_id = find_one self (PDict [(PStr "_id", doc_id)])
  /\ update_by_id self doc_id update_data
     = update_one self (PDict [(PStr "_id", doc_id)]) update_data
  /\ delete_by_id self doc_id = delete_one self (PDict [(PStr "_id", doc_id)]).
Proof. repeat split. Qed.

(** Unfolds a method on a resolved collection down to its boundary
    calls. *)
Ltac run_resolved Hget :=
  unfold invoke, count, create, create_many, find_by_id, find_one, update_by_id,
    update_one, update_many, delete_by_id, delete_one, delete_many,
    count_documents, exists_; simpl;
  rewrite (resolved_guard _ _ Hget); unfold bind at 1;
  rewrite (resolved_method _ _ _ _ Hget).

(** On a resolved collection the seven plain methods are one boundary
    call each: the arguments reach the driver as given, and what the
    driver returns or raises comes back as it is. *)
Theorem straight_delegation self c w :
  getattr self "collection" = Some (OColl c) ->
  (forall data, create self data w = boundary (BInsertOne c data) (drv_insert_one c data) w)
  /\ (forall data,
        create_many self data w = boundary (BInsertMany c data) (drv_insert_many c data) w)
  /\ (forall query,
        find_one self query w = boundary (BFindOne c query) (drv_find_one c query) w)
  /\ (forall query update,
        update_one self query update w
        = boundary (BUpdateOne c query update) (drv_update_one c query update) w)
  /\ (forall query update,
        update_many self query update w
        = boundary (BUpdateMany c query update) (drv_update_many c query update) w)
  /\ (forall query,
        delete_one self query w = boundary (BDeleteOne c query) (drv_delete_one c query) w)
  /\ (forall query,
        delete_many self query w
        = boundary (BDeleteMany c query) (drv_delete_many c query) w).
Proof.
  intros Hget. repeat split; intros; run_resolved Hget; reflexivity.
Qed.

(** On a resolved collection [count_documents] is one boundary call,
    [count_documents(q)] without a limit, where [q] is the filter, or
    [{}] when the filter is left out or falsy; the count comes back as an
    integer and an exception of the driver comes back as it is. *)
Theorem count_documents_resolved self c (query : option pyval) w :
  getattr self "collection" = Some (OColl c) ->
  let q := py_or (default PNone query) (PDict []) in
  count_documents self query w =
    (res_map PInt (fst (drv_count_documents c q None (drv w))),
     World (snd (drv_count_documents c q None (drv w)))
       (calls w ++ [BCountDocuments c q None]))
  /\ (truthy (default PNone query) = false -> q = PDict [])
  /\ (truthy (default PNone query) = true -> q = default PNone query).
Proof.
  intros Hget q. split; [| split].
  - run_resolved Hget. fold q. unfold bind, boundary, ret; simpl.
    destruct (drv_count_documents c q None (drv w)) as [[n | e] s]; reflexivity.
  - intros Hq. unfold q, py_or. rewrite Hq. reflexivity.
  - intros Hq. unfold q, py_or. rewrite Hq. reflexivity.
Qed.

(** A failure of [find] ends [find_many] with that exception after the
    one call; a failure of [limit] ends it before the cursor is
    iterated. *)
Theorem find_many_stops_at_failure self c (query limit : option pyval) w e :
  getattr self "collection" = Some (OColl c) ->
  let q := py_or (default PNone query) (PDict []) in
  let l := default PNone limit in
  (forall s1, drv_find c q (drv w) = (Raise e, s1) ->
     find_many self query limit w = (Raise e, World s1 (calls w ++ [BFind c q])))
  /\ (forall cur s1 s2,
        drv_find c q (drv w) = (Ok cur, s1) ->
        truthy l = true ->
        drv_limit cur l s1 = (Raise e, s2) ->
        find_many self query limit w
        = (Raise e, World s2 ((calls w ++ [BFind c q]) ++ [BLimit cur l]))).
Proof.
  intros Hget q l. split.
  - intros s1 Hfind. rewrite (find_many_resolved _ _ _ _ _ Hget). simpl.
    fold q. rewrite Hfind. reflexivity.
  - intros cur s1 s2 Hfind Htruthy Hlimit.
    rewrite (find_many_resolved _ _ _ _ _ Hget). simpl. fold q l.
    rewrite Hfind, Htruthy, Hlimit. reflexivity.
Qed.

Lemma only_on_nil c : only_on (D := D) c [].
Proof. constructor. Qed.

Lemma only_on_cons c (b : bcall D) log :
  match call_coll b with Some c' => c' = c | None => True end ->
  only_on c log -> only_on c (b :: log).
Proof. intros Hb Hlog. constructor; assumption. Qed.

(** On a resolved collection every method adds between one and three
    calls to the log, keeps what was logged before, and addresses no
    collection but [self.collection]. *)
Theorem calls_stay_on_collection (op : crud_op) self c w :
  getattr self "collection" = Some (OColl c) ->
  exists extra : list (bcall D),
    calls (snd (invoke op self w)) = (calls w ++ extra)%list
    /\ (1 <= length extra <= 3)%nat
    /\ only_on c extra.
Proof.
  intros Hget.
  assert (Hfind : forall query limit,
    exists extra : list (bcall D),
      calls (snd (find_many self query limit w)) = (calls w ++ extra)%list
      /\ (1 <= length extra <= 3)%nat /\ only_on c extra).
  { intros query limit. rewrite (find_many_resolved _ _ _ _ _ Hget). simpl.
    destruct (drv_find c _ (drv w)) as [[cur | e] s1].
    - destruct (truthy (default PNone limit)).
      + destruct (drv_limit cur _ s1) as [[cur' | e] s2]; simpl;
          rewrite <- !app_assoc; simpl; eexists; (split; [reflexivity |]);
          (split; [simpl; lia |]); repeat (apply only_on_cons; [exact I || reflexivity |]);
          apply only_on_nil.
      + simpl. rewrite <- !app_assoc; simpl. eexists. split; [reflexivity |].
        split; [simpl; lia |].
        repeat (apply only_on_cons; [exact I || reflexivity |]). apply only_on_nil.
    - simpl. eexists. split; [reflexivity |]. split; [simpl; lia |].
      apply only_on_cons; [reflexivity | apply only_on_nil]. }
  destruct op; try apply Hfind;
    run_resolved Hget; unfold bind, boundary, ret; simpl;
    match goal with
    | |- context [drv_count_documents ?a ?b ?l ?s] =>
        destruct (drv_count_documents a b l s) as [[? | ?] ?]
    | |- context [?f (drv w)] => destruct (f (drv w)) as [[? | ?] ?]
    end; simpl;
    (eexists; split; [reflexivity |]; split; [simpl; lia |];
     apply only_on_cons; [reflexivity | apply only_on_nil]).
Qed.
End CRUDMore.

(** *** The methods on the in-memory driver, continued *)

Lemma straight_delegation_witness :
  getattr with_a "collection" = Some (OColl "a")
  /\ create with_a bob two_docs
     = (Ok PNone,
        World (D := MemDriver.driver) [("a", [alice; bob; bob]); ("b", [])]
          [BInsertOne "a" bob]).
Proof.
  split; [reflexivity |].
  exact (proj1 (straight_delegation with_a "a" two_docs eq_refl) bob).
Defined.

Lemma count_documents_resolved_witness :
  getattr with_a "collection" = Some (OColl "a")
  /\ count_documents with_a (Some (PDict [])) two_docs
     = (Ok (PInt 2),
        World (drv two_docs) [BCountDocuments (D := MemDriver.driver) "a" (PDict []) None]).
Proof.
  split; [reflexivity |].
  exact (proj1 (count_documents_resolved with_a "a" (Some (PDict [])) two_docs eq_refl)).
Defined.

Lemma find_many_stops_at_failure_witness :
  getattr with_a "collection" = Some (OColl "a")
  /\ find_many with_a None (Some (PStr "two")) two_docs
     = (Raise (Exn TypeError "limit must be an integer" None),
        World (drv two_docs)
          [BFind "a" (PDict []);
           BLimit (D := MemDriver.driver) [alice; bob] (PStr "two")]).
Proof.
  split; [reflexivity |].
  exact (proj2 (find_many_stops_at_failure with_a "a" None (Some (PStr "two")) two_docs
                  (Exn TypeError "limit must be an integer" None) eq_refl)
           [alice; bob] (drv two_docs) (drv two_docs) eq_refl eq_refl eq_refl).
Defined.

Lemma calls_stay_on_collection_witness :
  getattr with_a "collection" = Some (OColl "a")
  /\ exists extra : list (bcall MemDriver.driver),
      calls (snd (invoke (OpFindAll None (Some (PInt 1))) with_a two_docs))
        = (calls two_docs ++ extra)%list
      /\ (1 <= length extra <= 3)%nat
      /\ only_on "a" extra.
Proof.
  split; [reflexivity |].
  exact (calls_stay_on_collection (OpFindAll None (Some (PInt 1))) with_a "a" two_docs
           eq_refl).
Defined.

(** * Further properties of [CollectionInjector] *)

Section InjectorMore.
Variable wraps : user_class -> wrapped_class -> res wrapped_class.

(** The constructor refuses [None] with [ValueError] and keeps any other
    handle as [self.db], without looking into it. *)
Theorem injector_requires_db (d : obj) :
  (d = OData PNone ->
   __init__ d = Raise (Exn ValueError "Database instance cannot be None" None))
  /\ (d <> OData PNone -> exists inj, __init__ d = Ok inj /\ db inj = d).
Proof.
  split.
  - intros ->. reflexivity.
  - intros Hne. exists (Injector d). split; [| reflexivity].
    unfold __init__. destruct d as [[] | |]; try reflexivity. congruence.
Qed.

(** [collection] returns a decorator exactly for a non-empty [str];
    every other name ([None], the empty string, a number, ...) is a
    [ValueError], whatever [with_crud] and the database are.  The
    database is not consulted. *)
Theorem collection_name_validation (self : t) (name : obj) (with_crud : option bool) :
  ((exists wrapper, collection wraps self name with_crud = Ok wrapper)
   <-> (exists s, name = OData (PStr s) /\ s <> ""))
  /\ (forall e, collection wraps self name with_crud = Raise e ->
        e = Exn ValueError "Collection name must be a non-empty string" None).
Proof.
  split; [split |].
  - intros [wrapper H]. unfold collection in H.
    destruct name as [[| | | s | |] | |]; try discriminate H.
    exists s. split; [reflexivity |]. intros ->. discriminate H.
  - intros (s & -> & Hne). eexists. apply (collection_accepts wraps self s _ Hne).
  - intros e H. unfold collection in H.
    destruct name as [[| | | s | |] | |]; try (injection H as <-; reflexivity).
    simpl in H. destruct (String.eqb s ""); [injection H as <-; reflexivity | discriminate H].
Qed.

(** [multiple_collections] returns a decorator exactly when at least one
    collection is declared; with none it raises [ValueError], whatever
    [with_crud] is. *)
Theorem multiple_collections_needs_one (self : t) (with_crud : option bool)
    (collections : list (string * string)) :
  (collections = [] ->
   multiple_collections wraps self with_crud collections
   = Raise (Exn ValueError "At least one collection must be specified" None))
  /\ (collections <> [] ->
      multiple_collections wraps self with_crud collections
      = Ok (multiple_wrapper wraps self (default false with_crud) collections)).
Proof.
  split.
  - intros ->. reflexivity.
  - intros Hne. destruct collections; [congruence | reflexivity].
Qed.

(** The validation loop of [multiple_collections] accepts the declared
    collections exactly when every one of them passes the probe, and
    otherwise raises what the probe raises for the first declared entry
    that fails. *)
Theorem probe_all_first_failure (self : t) (collections : list (string * string)) :
  (probe_all self collections = Ok tt
   <-> forall a n, (a, n) ∈ collections -> probe self n = Ok tt)
  /\ (forall e, probe_all self collections = Raise e ->
        exists pre a n post,
          collections = (pre ++ (a, n) :: post)%list
          /\ (forall a' n', (a', n') ∈ pre -> probe self n' = Ok tt)
          /\ probe self n = Raise e).
Proof.
  induction collections as [| [a0 n0] rest [IHok IHerr]].
  - split; [split |].
    + intros _ a n Hin. inversion Hin.
    + reflexivity.
    + intros e H. discriminate H.
  - simpl. destruct (probe self n0) as [[] | e0] eqn:Hp0.
    + split; [split |].
      * intros Hrest a n Hin. apply elem_of_cons in Hin as [Heq | Hin].
        -- injection Heq as -> ->. exact Hp0.
        -- exact (proj1 IHok Hrest a n Hin).
      * intros Hall. apply IHok. intros a n Hin. apply (Hall a n). right. exact Hin.
      * intros e H. destruct (IHerr e H) as (pre & a & n & post & -> & Hpre & Hfail).
        exists ((a0, n0) :: pre), a, n, post. split; [reflexivity |]. split; [| exact Hfail].
        intros a' n' Hin. apply elem_of_cons in Hin as [Heq | Hin].
        -- injection Heq as -> ->. exact Hp0.
        -- exact (Hpre a' n' Hin).
    + split; [split |].
      * intros H. discriminate H.
      * intros Hall. rewrite (Hall a0 n0) in Hp0; [discriminate Hp0 | left].
      * intros e H. injection H as <-.
        exists [], a0, n0, rest. split; [reflexivity |]. split; [| exact Hp0].
        intros a' n' Hin. inversion Hin.
Qed.

(** Whatever [wraps] does, a decorator that returns a class was applied
    to a class, every collection it names passed the probe, and the
    class it returns bears the name of the decorated class. *)
Theorem returned_class_was_validated (self : t) (name : string) (with_crud : bool)
    (collections : list (string * string)) (cls : target) (W : wrapped_class) :
  (collection_wrapper wraps self name with_crud cls = Ok W ->
   exists u, cls = TClass u /\ probe self name = Ok tt /\ w_name W = uc_name u)
  /\ (multiple_wrapper wraps self with_crud collections cls = Ok W ->
      exists u, cls = TClass u /\ probe_all self collections = Ok tt
                /\ w_name W = uc_name u).
Proof.
  split; intros H; destruct cls as [u | o]; try discriminate H; exists u;
    (split; [reflexivity |]); simpl in H.
  - destruct (probe self name) as [[] | e]; [| discriminate H].
    split; [reflexivity |].
    destruct (wraps u _) as [W' | e]; [| discriminate H].
    injection H as <-. reflexivity.
  - destruct (probe_all self collections) as [[] | e]; [| discriminate H].
    split; [reflexivity |].
    destruct (wraps u _) as [W' | e]; [| discriminate H].
    injection H as <-. reflexivity.
Qed.
End InjectorMore.

(** *** Initializers *)

Section ConstructionMore.
Implicit Types (self : instance) (args : list pyval) (kwargs : kwargs_t).

Lemma init_bases_crud_mixin args kwargs self :
  init_bases [ClsCRUDMixin] args kwargs self = (Ok tt, self).
Proof. simpl. destruct args, kwargs; reflexivity. Qed.

Lemma init_bases_cons (base : pyclass) (rest : list pyclass) args kwargs self :
  init_bases (base :: rest) args kwargs self =
    match class_init base args kwargs self with
    | (Ok _, self1) => init_bases rest args kwargs self1
    | (Raise e, self1) =>
        match exn_cls e with
        | TypeError =>
            if negb (is_object base) then
              match class_init base [] [] self1 with
              | (Ok _, self2) => init_bases rest args kwargs self2
              | (Raise e2, self2) => (Raise e2, self2)
              end
            else init_bases rest args kwargs self1
        | _ => (Raise e, self1)
        end
    end.
Proof. reflexivity. Qed.

Lemma init_bases_drop_crud_mixin (bases : list pyclass) args kwargs :
  forall self,
    init_bases (bases ++ [ClsCRUDMixin]) args kwargs self
    = init_bases bases args kwargs self.
Proof.
  induction bases as [| base rest IH]; intros self.
  - apply init_bases_crud_mixin.
  - rewrite <- app_comm_cons, !init_bases_cons.
    destruct (class_init base args kwargs self) as [[[] | e] self1]; [apply IH |].
    destruct (exn_cls e); try reflexivity.
    destruct (negb (is_object base)); [| apply IH].
    destruct (class_init base [] [] self1) as [[[] | e2] self2]; [apply IH | reflexivity].
Qed.

(** Running the initializers with [CRUDMixin] among the bases gives the
    same instance, or the same exception, as running them without:
    [CRUDMixin.__init__] is [object.__init__], which writes nothing, and
    its [TypeError] for extra arguments is absorbed by the retry.  So the
    three [__init__]s do the same with and without the capability set,
    up to the default collection of [multiple_collections]. *)
Theorem crud_mixin_init_is_noop (cls : user_class) (name : string) args kwargs self :
  init_bases (base_classes cls true) args kwargs self
  = init_bases (base_classes cls false) args kwargs self
  /\ collection_init name (base_classes cls true) args kwargs self
     = collection_init name (base_classes cls false) args kwargs self.
Proof.
  assert (H : init_bases (base_classes cls true) args kwargs self
              = init_bases (base_classes cls false) args kwargs self).
  { unfold base_classes.
    rewrite (init_bases_drop_crud_mixin [ClsUser cls]), app_nil_r. reflexivity. }
  split; [exact H |]. unfold collection_init, bind. rewrite H. reflexivity.
Qed.

(** An exception other than [TypeError] from a base's [__init__] ends
    the construction with that exception: the remaining bases are not
    initialized and nothing is injected, in either decorator. *)
Theorem init_failure_stops_construction (base : pyclass) (rest : list pyclass)
    args kwargs self (e : exn) (self1 : instance) :
  class_init base args kwargs self = (Raise e, self1) ->
  exn_cls e <> TypeError ->
  init_bases (base :: rest) args kwargs self = (Raise e, self1)
  /\ (forall name,
        collection_init name (base :: rest) args kwargs self = (Raise e, self1))
  /\ (forall with_crud collections,
        multiple_init with_crud collections (base :: rest) args kwargs self
        = (Raise e, self1)).
Proof.
  intros Hinit Hcls.
  assert (H : init_bases (base :: rest) args kwargs self = (Raise e, self1)).
  { simpl. rewrite Hinit. destruct (exn_cls e); try reflexivity. congruence. }
  split; [exact H |]. split.
  - intros name. unfold collection_init, bind. rewrite H. reflexivity.
  - intros with_crud collections. unfold multiple_init, bind. rewrite H. reflexivity.
Qed.

(** When the second call, the one without arguments, raises as well,
    that second exception ends the construction, [TypeError] or not. *)
Theorem retry_failure_propagates (base : pyclass) (rest : list pyclass)
    args kwargs self (e e2 : exn) (self1 self2 : instance) :
  is_object base = false ->
  class_init base args kwargs self = (Raise e, self1) ->
  exn_cls e = TypeError ->
  class_init base [] [] self1 = (Raise e2, self2) ->
  init_bases (base :: rest) args kwargs self = (Raise e2, self2)
  /\ (forall name,
        collection_init name (base :: rest) args kwargs self = (Raise e2, self2)).
Proof.
  intros Hobj Hfirst Hcls Hsecond.
  assert (H : init_bases (base :: rest) args kwargs self = (Raise e2, self2)).
  { simpl. rewrite Hfirst, Hcls, Hobj. simpl. rewrite Hsecond. reflexivity. }
  split; [exact H |].
  intros name. unfold collection_init, bind. rewrite H. reflexivity.
Qed.

(** When the initializers succeed and the instance carries a database
    handle that has the name, [collection]'s [__init__] succeeds, the
    [collection] attribute holds what the handle returns, replacing
    anything the class's own [__init__] stored there, and every other
    attribute is as the initializers left it. *)
Theorem injection_is_last_write (name : string) (bases : list pyclass) args kwargs
    self (self' : instance) (d c : obj) :
  init_bases bases args kwargs self = (Ok tt, self') ->
  getattr self' "db" = Some d ->
  py_getitem d name = Ok c ->
  exists final,
    collection_init name bases args kwargs self = (Ok tt, final)
    /\ getattr final "collection" = Some c
    /\ (forall x, x <> "collection" -> getattr final x = getattr self' x)
    /\ type_name final = type_name self'.
Proof.
  intros Hbases Hdb Hget. exists (setattr self' "collection" c).
  split; [exact (collection_init_with_db name _ _ _ _ _ _ _ Hbases Hdb Hget) |].
  split; [apply getattr_setattr_eq |]. split; [| reflexivity].
  intros x Hx. apply getattr_setattr_ne. congruence.
Qed.

(** At construction time a failing lookup is not translated: whatever
    [self.db[name]] raises ends the construction as it is, and no
    [collection] attribute is written. *)
Theorem construction_lookup_error_is_raw (name : string) (bases : list pyclass)
    args kwargs self (self' : instance) (d : obj) (e : exn) :
  init_bases bases args kwargs self = (Ok tt, self') ->
  getattr self' "db" = Some d ->
  py_getitem d name = Raise e ->
  collection_init name bases args kwargs self = (Raise e, self').
Proof.
  intros Hbases Hdb Hget.
  rewrite (collection_init_after_bases _ _ _ _ _ _ _ Hbases), Hdb, Hget. reflexivity.
Qed.

End ConstructionMore.

(** *** The two [wraps] *)

(** With [functools.wraps] neither decorator ever returns a class, and
    what it raises is fixed by the first check that fails: a target that
    is not a class is the [TypeError] "Decorator can only be applied to
    classes"; for a class, a failed probe raises what the probe raises;
    and where the probe passes, the decorator of the class statement
    raises [AttributeError]. *)
Theorem functools_wraps_returns_no_class (self : t) (name : string) (with_crud : bool)
    (collections : list (string * string)) (cls : target) :
  collection_wrapper functools_wraps self name with_crud cls
  = Raise (match cls with
           | TOther _ => Exn TypeError "Decorator can only be applied to classes" None
           | TClass _ =>
               match probe self name with
               | Raise e => e
               | Ok _ =>
                   Exn AttributeError "'mappingproxy' object has no attribute 'update'" None
               end
           end)
  /\ multiple_wrapper functools_wraps self with_crud collections cls
     = Raise (match cls with
              | TOther _ => Exn TypeError "Decorator can only be applied to classes" None
              | TClass _ =>
                  match probe_all self collections with
                  | Raise e => e
                  | Ok _ =>
                      Exn AttributeError "'mappingproxy' object has no attribute 'update'"
                        None
                  end
              end)
  /\ (forall W, collection_wrapper functools_wraps self name with_crud cls <> Ok W)
  /\ (forall W, multiple_wrapper functools_wraps self with_crud collections cls <> Ok W).
Proof.
  assert (H1 : collection_wrapper functools_wraps self name with_crud cls
    = Raise (match cls with
             | TOther _ => Exn TypeError "Decorator can only be applied to classes" None
             | TClass _ =>
                 match probe self name with
                 | Raise e => e
                 | Ok _ =>
                     Exn AttributeError "'mappingproxy' object has no attribute 'update'"
                       None
                 end
             end)).
  { destruct cls as [u | o]; [| reflexivity]. simpl.
    destruct (probe self name) as [[] | e]; reflexivity. }
  assert (H2 : multiple_wrapper functools_wraps self with_crud collections cls
    = Raise (match cls with
             | TOther _ => Exn TypeError "Decorator can only be applied to classes" None
             | TClass _ =>
                 match probe_all self collections with
                 | Raise e => e
                 | Ok _ =>
                     Exn AttributeError "'mappingproxy' object has no attribute 'update'"
                       None
                 end
             end)).
  { destruct cls as [u | o]; [| reflexivity]. simpl.
    destruct (probe_all self collections) as [[] | e]; reflexivity. }
  split; [exact H1 |]. split; [exact H2 |]. split; intros W H.
  - rewrite H1 in H. discriminate H.
  - rewrite H2 in H. discriminate H.
Qed.

(** With a [wraps] that only copies the metadata, [collection] applied
    to a class returns a class exactly when the probe passes; that class
    has [CRUDMixin] among its bases exactly when [with_crud] is true, and
    its [__repr__] ends in " with CRUD" exactly then. *)
Theorem metadata_wraps_decoration (self : t) (name : string) (with_crud : bool)
    (u : user_class) :
  (probe self name = Ok tt ->
   exists W, collection_wrapper metadata_wraps self name with_crud (TClass u) = Ok W
             /\ w_bases W = base_classes u with_crud
             /\ has_crud W = with_crud
             /\ w_repr W = uc_name u +:+ "(collection='" +:+ name +:+ "'"
                           +:+ (if with_crud then " with CRUD" else "") +:+ ")")
  /\ (forall e, probe self name = Raise e ->
        collection_wrapper metadata_wraps self name with_crud (TClass u) = Raise e).
Proof.
  split.
  - intros Hp. eexists. split; [simpl; rewrite Hp; reflexivity |].
    split; [reflexivity |]. split; [| reflexivity].
    destruct with_crud; reflexivity.
  - intros e Hp. simpl. rewrite Hp. reflexivity.
Qed.

(** *** The decorators on the sample classes *)

Import Samples.

Lemma collection_name_validation_witness :
  (exists wrapper, collection functools_wraps injector (OData (PStr "a")) None = Ok wrapper)
  /\ collection functools_wraps injector (OData (PStr "")) None
     = Raise (Exn ValueError "Collection name must be a non-empty string" None)
  /\ collection functools_wraps injector (OData PNone) (Some false)
     = Raise (Exn ValueError "Collection name must be a non-empty string" None).
Proof.
  split; [| split].
  - apply (proj1 (collection_name_validation functools_wraps injector
                    (OData (PStr "a")) None)).
    exists "a". split; [reflexivity | discriminate].
  - reflexivity.
  - reflexivity.
Defined.

Lemma multiple_collections_needs_one_witness :
  multiple_collections functools_wraps injector (Some true) []
  = Raise (Exn ValueError "At least one collection must be specified" None).
Proof.
  exact (proj1 (multiple_collections_needs_one functools_wraps injector (Some true) [])
           eq_refl).
Defined.

Lemma probe_all_first_failure_witness :
  probe_all injector [("x", "a"); ("y", "zzz"); ("z", "qqq")]
    = Raise (not_accessible "zzz" (Exn KeyError "zzz" None))
  /\ exists pre a n post,
      [("x", "a"); ("y", "zzz"); ("z", "qqq")] = (pre ++ (a, n) :: post)%list
      /\ (forall a' n', (a', n') ∈ pre -> probe injector n' = Ok tt)
      /\ probe injector n = Raise (not_accessible "zzz" (Exn KeyError "zzz" None)).
Proof.
  split; [reflexivity |].
  exact (proj2 (probe_all_first_failure injector [("x", "a"); ("y", "zzz"); ("z", "qqq")])
           (not_accessible "zzz" (Exn KeyError "zzz" None)) eq_refl).
Defined.

Lemma returned_class_was_validated_witness :
  exists W,
    collection_wrapper metadata_wraps injector "a" true (TClass OwnDb) = Ok W
    /\ exists u, TClass OwnDb = TClass u /\ probe injector "a" = Ok tt
                 /\ w_name W = uc_name u.
Proof.
  eexists. split; [reflexivity |].
  exact (proj1 (returned_class_was_validated metadata_wraps injector "a" true []
                  (TClass OwnDb) _) eq_refl).
Defined.

Lemma functools_wraps_returns_no_class_witness :
  collection_wrapper functools_wraps injector "a" true (TClass OwnDb)
  = Raise (Exn AttributeError "'mappingproxy' object has no attribute 'update'" None)
  /\ collection_wrapper functools_wraps injector "a" true (TOther (OData (PInt 3)))
     = Raise (Exn TypeError "Decorator can only be applied to classes" None)
  /\ multiple_wrapper functools_wraps injector false [("x", "a"); ("y", "zzz")]
       (TClass OwnDb)
     = Raise (not_accessible "zzz" (Exn KeyError "zzz" None)).
Proof.
  split; [| split].
  - exact (proj1 (functools_wraps_returns_no_class injector "a" true [] (TClass OwnDb))).
  - exact (proj1 (functools_wraps_returns_no_class injector "a" true []
                    (TOther (OData (PInt 3))))).
  - exact (proj1 (proj2 (functools_wraps_returns_no_class injector "a" false
                           [("x", "a"); ("y", "zzz")] (TClass OwnDb)))).
Defined.

Lemma metadata_wraps_decoration_witness :
  probe injector "a" = Ok tt
  /\ exists W,
      collection_wrapper metadata_wraps injector "a" false (TClass OwnDb) = Ok W
      /\ w_bases W = base_classes OwnDb false
      /\ has_crud W = false
      /\ w_repr W = "OwnDb(collection='a')".
Proof.
  split; [reflexivity |].
  exact (proj1 (metadata_wraps_decoration injector "a" false OwnDb) eq_refl).
Defined.

Lemma init_bases_retry_witness :
  class_init (ClsUser Counting) [PInt 5] [] counting_fresh
    = (Raise (Exn TypeError "unsupported operand" None), counting_once)
  /\ class_init (ClsUser Counting) [] [] counting_once = (Ok tt, counting_twice)
  /\ init_bases [ClsUser Counting; ClsCRUDMixin] [PInt 5] [] counting_fresh
     = init_bases [ClsCRUDMixin] [PInt 5] [] counting_twice
  /\ getattr counting_twice "calls" = Some (OData (PInt 2)).
Proof.
  split; [reflexivity |]. split; [reflexivity |]. split; [| reflexivity].
  exact (init_bases_retry (ClsUser Counting) [ClsCRUDMixin] [PInt 5] [] counting_fresh
           (Exn TypeError "unsupported operand" None) counting_once counting_twice
           eq_refl eq_refl eq_refl eq_refl).
Defined.

Lemma init_failure_stops_construction_witness :
  class_init (ClsUser Failing) [] [] bare = (Raise (Exn ValueError "boom" None), bare)
  /\ exn_cls (Exn ValueError "boom" None) <> TypeError
  /\ collection_init "a" [ClsUser Failing; ClsCRUDMixin] [] [] bare
     = (Raise (Exn ValueError "boom" None), bare).
Proof.
  assert (Hne : exn_cls (Exn ValueError "boom" None) <> TypeError) by discriminate.
  split; [reflexivity |]. split; [exact Hne |].
  exact (proj1 (proj2
           (init_failure_stops_construction (ClsUser Failing) [ClsCRUDMixin] [] [] bare
              (Exn ValueError "boom" None) bare eq_refl Hne)) "a").
Defined.

Lemma retry_failure_propagates_witness :
  class_init (ClsUser Broken) [PInt 1] [] bare = (Raise (Exn TypeError "broken" None), bare)
  /\ class_init (ClsUser Broken) [] [] bare = (Raise (Exn TypeError "broken" None), bare)
  /\ init_bases [ClsUser Broken; ClsCRUDMixin] [PInt 1] [] bare
     = (Raise (Exn TypeError "broken" None), bare).
Proof.
  split; [reflexivity |]. split; [reflexivity |].
  exact (proj1
           (retry_failure_propagates (ClsUser Broken) [ClsCRUDMixin] [PInt 1] [] bare
              (Exn TypeError "broken" None) (Exn TypeError "broken" None) bare bare
              eq_refl eq_refl eq_refl eq_refl)).
Defined.

Lemma injection_is_last_write_witness :
  init_bases [ClsUser SetsCollection; ClsCRUDMixin] [] [] bare
    = (Ok tt, sets_collection_done)
  /\ getattr sets_collection_done "collection" = Some (OData (PStr "mine"))
  /\ exists final,
      collection_init "a" [ClsUser SetsCollection; ClsCRUDMixin] [] [] bare = (Ok tt, final)
      /\ getattr final "collection" = Some (OColl "a")
      /\ (forall x, x <> "collection" -> getattr final x = getattr sets_collection_done x)
      /\ type_name final = type_name sets_collection_done.
Proof.
  split; [reflexivity |]. split; [reflexivity |].
  exact (injection_is_last_write "a" [ClsUser SetsCollection; ClsCRUDMixin] [] [] bare
           sets_collection_done dict_db (OColl "a") eq_refl eq_refl eq_refl).
Defined.

Lemma construction_lookup_error_is_raw_witness :
  probe injector "a" = Ok tt
  /\ init_bases [ClsUser OtherDb; ClsCRUDMixin] [] [] bare
     = (Ok tt, setattr bare "db" only_b_db)
  /\ py_getitem only_b_db "a" = Raise (Exn KeyError "a" None)
  /\ collection_init "a" [ClsUser OtherDb; ClsCRUDMixin] [] [] bare
     = (Raise (Exn KeyError "a" None), setattr bare "db" only_b_db).
Proof.
  split; [reflexivity |]. split; [reflexivity |]. split; [reflexivity |].
  exact (construction_lookup_error_is_raw "a" [ClsUser OtherDb; ClsCRUDMixin] [] [] bare
           (setattr bare "db" only_b_db) only_b_db (Exn KeyError "a" None)
           eq_refl eq_refl eq_refl).
Defined.


Lemma injector_requires_db_witness :
  dict_db <> OData PNone
  /\ exists inj, __init__ dict_db = Ok inj /\ db inj = dict_db.
Proof.
  assert (Hne : dict_db <> OData PNone) by discriminate.
  split; [exact Hne |].
  exact (proj2 (injector_requires_db dict_db) Hne).
Defined.

(** [find_all] and [find_many] are one function under two names: for
    every instance, filter, limit and world they return the same value or
    raise the same exception and leave the same log. *)
Theorem find_all_same_as_find_many {D : Driver} (self : instance)
    (query limit : option pyval) (w : world D) :
  find_all self query limit w = find_many self query limit w
  /\ invoke (OpFindAll query limit) self w = invoke (OpFindMany query limit) self w.
Proof. split; reflexivity. Qed.
